(** * Request metrics hooks of [datadog/src/app_helper.py]

    A shallow embedding of the Flask request hooks that forward request and
    response attributes to a DogStatsd client, and the properties of the
    hooks that the specification states.

    Python values that flow through the hooks are modelled by [value]
    (floats are IEEE 754 binary64, as [PrimFloat.float]); the hooks run in
    a state-and-exception monad over a [World] that holds the in-flight
    request object, the metrics the client has taken, and standard
    output. The first part of the file is the model, the second part the
    properties. *)

From Stdlib Require Import ZArith Lia Bool.
From Stdlib Require Import Floats.
From stdpp Require Import base strings gmap list sorting pretty.

Local Open Scope Z_scope.

(** * Part I: the model *)

(** ** Python values and exceptions *)

Module Py.

(** The Python objects that request attributes and metric values hold. *)
Inductive value : Type :=
| VNone
| VBool (b : bool)
| VInt (z : Z)
| VFloat (f : float)
| VStr (s : string).

(** Exceptions, all of them subclasses of [Exception]; the payload is the
    message [str(e)] prints. *)
Inductive exn : Type :=
| AttributeError (msg : string)
| TypeError (msg : string)
| ValueError (msg : string)
| OverflowError (msg : string)
| OtherError (msg : string).

Definition exn_message (e : exn) : string :=
  match e with
  | AttributeError m | TypeError m | ValueError m
  | OverflowError m | OtherError m => m
  end.

Inductive result (A : Type) : Type :=
| Return (a : A)
| Raise (e : exn).
Arguments Return {A} a.
Arguments Raise {A} e.

Definition returns {A} (r : result A) : bool :=
  match r with Return _ => true | Raise _ => false end.

Definition type_name (v : value) : string :=
  match v with
  | VNone => "NoneType"
  | VBool _ => "bool"
  | VInt _ => "int"
  | VFloat _ => "float"
  | VStr _ => "str"
  end.

(** [bool], [int] and [float] are the numeric types. *)
Definition numeric (v : value) : bool :=
  match v with
  | VBool _ | VInt _ | VFloat _ => true
  | VNone | VStr _ => false
  end.

(** The float nearest to an integer (round to nearest, ties to even);
    an infinite result is Python's [OverflowError]. *)
Definition nearest_float (z : Z) : float :=
  SF2Prim (binary_normalize prec emax z 0 false).

Definition float_of_int (z : Z) : result float :=
  let f := nearest_float z in
  if is_infinity f
  then Raise (OverflowError "int too large to convert to float")
  else Return f.

(** [v < n] for an integer literal [n] that a float holds exactly (10, 50
    and 200 below): Python compares a float with an int by value, which
    for such [n] is the float comparison with [nearest_float n]. *)
Definition lt_literal (v : value) (n : Z) : result bool :=
  match v with
  | VBool b => Return (Z.b2z b <? n)
  | VInt z => Return (z <? n)
  | VFloat f => Return (f <? nearest_float n)%float
  | VNone | VStr _ =>
      Raise (TypeError ("'<' not supported between instances of '"
                          +:+ type_name v +:+ "' and 'int'"))
  end.

End Py.
Import Py.

(** ** [get_amount_range] *)

(** [def get_amount_range(amount)]: the [if]/[elif] chain over
    [amount < 10], [amount < 50], [amount < 200]. A comparison that raises
    ends the call. *)
Definition get_amount_range (amount : value) : result string :=
  match lt_literal amount 10 with
  | Raise e => Raise e
  | Return true => Return "small"
  | Return false =>
      match lt_literal amount 50 with
      | Raise e => Raise e
      | Return true => Return "medium"
      | Return false =>
          match lt_literal amount 200 with
          | Raise e => Raise e
          | Return true => Return "large"
          | Return false => Return "premium"
          end
      end
  end.

(** ** The request, the response and the metrics client *)

(** The attributes of Flask's [request] that the hooks read: [path],
    [method], the query arguments [args] (in order, keys may repeat), and
    [attrs], the attributes that handlers stash on the request object
    ([start_time], [purchase_amount], ...). *)
Record Request : Type := {
  path : string;
  method : string;
  args : list (string * string);
  attrs : gmap string value;
}.

Record Response : Type := {
  status_code : Z;
  data : string;
}.

(** One call of a DogStatsd method: [statsd.histogram], [statsd.increment],
    [statsd.gauge] or [statsd.distribution], with the metric name, the value
    and the tag list as passed. *)
Inductive statsd_method : Type := histogram | increment | gauge | distribution.

Record StatsdCall : Type := {
  call_method : statsd_method;
  metric : string;
  sample : value;
  tags : list string;
}.

Global Instance statsd_method_eq_dec : EqDecision statsd_method.
Proof. solve_decision. Defined.

(** What the hooks take from outside this module: the clock, the DogStatsd
    client (the exception a call raises, if it raises one), and the parsing
    and printing of numbers by the Python runtime. *)
Record Runtime : Type := {
  clock : nat → float;
  statsd_raises : StatsdCall → option exn;
  parse_float : string → option float;
  parse_int : string → option Z;
  repr_float : float → string;
}.

(** The client never raises: the fire-and-forget contract of the metrics
    client. *)
Definition silent (rt : Runtime) : Prop :=
  ∀ c, statsd_raises rt c = None.

(** The state a hook runs in: the in-flight [request], the calls the
    client has taken so far (oldest first), what was printed, and the
    number of clock readings made. *)
Record World : Type := {
  request : Request;
  emitted : list StatsdCall;
  stdout : list string;
  ticks : nat;
}.

(** ** The monad of hooks: state and exceptions *)

Definition M (A : Type) : Type := World → result A * World.

Definition ret {A} (a : A) : M A := λ w, (Return a, w).

Definition bind {A B} (m : M A) (k : A → M B) : M B := λ w,
  match m w with
  | (Return a, w') => k a w'
  | (Raise e, w') => (Raise e, w')
  end.

Definition raise {A} (e : exn) : M A := λ w, (Raise e, w).

(** [try: body except Exception as e: handler e]. *)
Definition try_except {A} (body : M A) (handler : exn → M A) : M A := λ w,
  match body w with
  | (Return a, w') => (Return a, w')
  | (Raise e, w') => handler e w'
  end.

Definition lift {A} (r : result A) : M A := λ w, (r, w).

Definition when (b : bool) (m : M unit) : M unit :=
  if b then m else ret tt.

Declare Scope hook_scope.
Delimit Scope hook_scope with hook.
Notation "x <- m ;; k" := (bind m (λ x, k))
  (at level 100, m at next level, right associativity) : hook_scope.
Notation "m ;;; k" := (bind m (λ _, k))
  (at level 100, right associativity) : hook_scope.
Local Open Scope hook_scope.

Definition outcome {A} (m : M A) (w : World) : result A := fst (m w).
Definition after {A} (m : M A) (w : World) : World := snd (m w).

(** ** The hooks *)

Section Hooks.

Variable rt : Runtime.

(** *** Runtime operations *)

(** [time.time()]. *)
Definition time_time : M float := λ w,
  (Return (clock rt (ticks w)),
   {| request := request w; emitted := emitted w;
      stdout := stdout w; ticks := S (ticks w) |}).

(** A call of the client: it raises what the runtime says, or takes the
    metric. *)
Definition statsd (c : StatsdCall) : M unit := λ w,
  match statsd_raises rt c with
  | Some e => (Raise e, w)
  | None =>
      (Return tt,
       {| request := request w; emitted := emitted w ++ [c];
          stdout := stdout w; ticks := ticks w |})
  end.

Definition print (line : string) : M unit := λ w,
  (Return tt,
   {| request := request w; emitted := emitted w;
      stdout := stdout w ++ [line]; ticks := ticks w |}).

Definition request_path : M string := λ w, (Return (path (request w)), w).
Definition request_method : M string := λ w, (Return (method (request w)), w).

(** [request.name]: [AttributeError] when the attribute was never set. *)
Definition request_attr (name : string) : M value := λ w,
  match attrs (request w) !! name with
  | Some v => (Return v, w)
  | None =>
      (Raise (AttributeError
                ("'Request' object has no attribute '" +:+ name +:+ "'")), w)
  end.

(** [getattr(request, name, fallback)]. *)
Definition getattr_request (name : string) (fallback : value) : M value := λ w,
  (Return (default fallback (attrs (request w) !! name)), w).

(** [request.name = v]. *)
Definition setattr_request (name : string) (v : value) : M unit := λ w,
  (Return tt,
   {| request :=
        {| path := path (request w); method := method (request w);
           args := args (request w);
           attrs := <[name := v]> (attrs (request w)) |};
      emitted := emitted w; stdout := stdout w; ticks := ticks w |}).

(** [request.args.get(key, fallback, type=int)]: the first value of [key],
    converted; the fallback when the key is absent or the conversion
    fails. *)
Definition args_get_int (key : string) (fallback : Z) : M Z := λ w,
  (Return
     match list_find (λ kv, kv.1 = key) (args (request w)) with
     | Some (_, (_, s)) => default fallback (parse_int rt s)
     | None => fallback
     end, w).

(** [response.status_code]; [None] has no such attribute. *)
Definition response_status_code (response : option Response) : M Z :=
  match response with
  | Some r => ret (status_code r)
  | None =>
      raise (AttributeError
               "'NoneType' object has no attribute 'status_code'")
  end.

(** [str(v)], as an f-string field formats it. *)
Definition py_str (v : value) : string :=
  match v with
  | VNone => "None"
  | VBool true => "True"
  | VBool false => "False"
  | VInt z => pretty z
  | VFloat f => repr_float rt f
  | VStr s => s
  end.

(** [float(v)]. *)
Definition py_float (v : value) : result float :=
  match v with
  | VFloat f => Return f
  | VInt z => float_of_int z
  | VBool b => float_of_int (Z.b2z b)
  | VStr s =>
      match parse_float rt s with
      | Some f => Return f
      | None =>
          Raise (ValueError ("could not convert string to float: '"
                               +:+ s +:+ "'"))
      end
  | VNone =>
      Raise (TypeError
               "float() argument must be a string or a real number, not 'NoneType'")
  end.

(** [x - v] for a float [x]. *)
Definition float_sub (x : float) (v : value) : result value :=
  match v with
  | VFloat f => Return (VFloat (x - f)%float)
  | VInt z =>
      match float_of_int z with
      | Return f => Return (VFloat (x - f)%float)
      | Raise e => Raise e
      end
  | VBool b =>
      match float_of_int (Z.b2z b) with
      | Return f => Return (VFloat (x - f)%float)
      | Raise e => Raise e
      end
  | VNone | VStr _ =>
      Raise (TypeError ("unsupported operand type(s) for -: 'float' and '"
                          +:+ type_name v +:+ "'"))
  end.

(** *** Metric names *)

Definition PURCHASE_AMOUNT_METRIC : string := "ecommerce.purchase_amount".
Definition PURCHASE_COUNT_METRIC : string := "ecommerce.purchase_count".
Definition PROCESSING_TIME_METRIC : string := "ecommerce.processing_time".
Definition REQUEST_LATENCY_METRIC_NAME : string := "request_latency_seconds_hist".
Definition REQUEST_COUNT : string := "request_count".
Definition ERROR_COUNT : string := "error_count".
Definition BUSINESS_METRIC : string := "business_value".
Definition DB_QUERY_COUNT : string := "database_queries_total".
Definition MEMORY_USAGE_METRIC : string := "memory_usage_bytes".
Definition CPU_USAGE_METRIC : string := "cpu_usage_seconds".

(** *** The four hooks *)

(** [def start_timer()]. *)
Definition start_timer : M unit :=
  now <- time_time ;;
  setattr_request "start_time" (VFloat now).

(** [def stop_timer(response)]. The arguments of [statsd.histogram] are
    evaluated left to right before the call. *)
Definition stop_timer (response : option Response) : M (option Response) :=
  now <- time_time ;;
  start_time <- request_attr "start_time" ;;
  resp_time <- lift (float_sub now start_time) ;;
  endpoint <- request_path ;;
  meth <- request_method ;;
  status <- response_status_code response ;;
  statsd {| call_method := histogram;
            metric := REQUEST_LATENCY_METRIC_NAME;
            sample := resp_time;
            tags := [ "service:webapp";
                      "endpoint:" +:+ endpoint;
                      "method:" +:+ meth;
                      "status:" +:+ pretty status ] |} ;;;
  ret response.

(** [def record_request_data(response)]. *)
Definition record_request_data (response : option Response)
  : M (option Response) :=
  (meth <- request_method ;;
   endpoint <- request_path ;;
   status <- response_status_code response ;;
   statsd {| call_method := increment;
             metric := REQUEST_COUNT;
             sample := VInt 1;
             tags := [ "service:webapp";
                       "method:" +:+ meth;
                       "endpoint:" +:+ endpoint;
                       "status:" +:+ pretty status ] |}) ;;;
  (* Track errors separately *)
  (status <- response_status_code response ;;
   when ((400 <=? status) && (status <? 600))
     (meth <- request_method ;;
      endpoint <- request_path ;;
      status <- response_status_code response ;;
      statsd {| call_method := increment;
                metric := ERROR_COUNT;
                sample := VInt 1;
                tags := [ "service:webapp";
                          "method:" +:+ meth;
                          "endpoint:" +:+ endpoint;
                          "status:" +:+ pretty status ] |})) ;;;
  (* Track database queries *)
  (p <- request_path ;;
   when (bool_decide (p ∈ ["/users"; "/database-query"; "/health"]))
     (endpoint <- request_path ;;
      meth <- request_method ;;
      statsd {| call_method := increment;
                metric := DB_QUERY_COUNT;
                sample := VInt 1;
                tags := [ "service:webapp";
                          "endpoint:" +:+ endpoint;
                          "method:" +:+ meth ] |})) ;;;
  (p <- request_path ;;
   when (String.eqb p "/delay")
     (v <- getattr_request "business_value" (VFloat 1) ;;
      business_value <- lift (py_float v) ;;
      statsd {| call_method := gauge;
                metric := BUSINESS_METRIC;
                sample := VFloat business_value;
                tags := [ "service:webapp"; "metric_type:performance" ] |})) ;;;
  (* Track memory usage for memory-intensive endpoints *)
  (p <- request_path ;;
   when (String.eqb p "/memory-usage")
     (size_mb <- args_get_int "size" 10 ;;
      let memory_bytes := size_mb * 1024 * 1024 in
      statsd {| call_method := gauge;
                metric := MEMORY_USAGE_METRIC;
                sample := VInt memory_bytes;
                tags := [ "service:webapp"; "operation:memory_allocation" ] |})) ;;;
  (* Track CPU usage for CPU-intensive endpoints *)
  (p <- request_path ;;
   when (String.eqb p "/cpu-intensive")
     (execution_time <- getattr_request "cpu_execution_time" (VInt 0) ;;
      statsd {| call_method := gauge;
                metric := CPU_USAGE_METRIC;
                sample := execution_time;
                tags := [ "service:webapp"; "operation:cpu_intensive" ] |})) ;;;
  ret response.

(** The body of the [try] block of [record_purchase_metrics]. *)
Definition purchase_metrics_body : M unit :=
  p <- request_path ;;
  m <- request_method ;;
  (* Only process purchase requests *)
  when (String.eqb p "/purchase" && String.eqb m "POST")
    (purchase_amount <- getattr_request "purchase_amount" (VInt 0) ;;
     processing_time <- getattr_request "processing_time" (VInt 0) ;;
     quantity <- getattr_request "quantity" (VInt 0) ;;
     product_id <- getattr_request "product_id" (VStr "unknown") ;;
     (* 1. Revenue tracking *)
     (amount_range <- lift (get_amount_range purchase_amount) ;;
      statsd {| call_method := gauge;
                metric := PURCHASE_AMOUNT_METRIC;
                sample := purchase_amount;
                tags := [ "service:webapp";
                          "currency:USD";
                          "amount_range:" +:+ amount_range;
                          "product_id:" +:+ py_str product_id ] |}) ;;;
     (* 2. Purchase count *)
     statsd {| call_method := increment;
               metric := PURCHASE_COUNT_METRIC;
               sample := quantity;
               tags := [ "service:webapp";
                         "transaction_type:purchase";
                         "product_id:" +:+ py_str product_id ] |} ;;;
     (* 3. Processing time distribution *)
     statsd {| call_method := distribution;
               metric := PROCESSING_TIME_METRIC;
               sample := processing_time;
               tags := [ "service:webapp"; "operation:purchase" ] |}).

(** [def record_purchase_metrics(response)]. *)
Definition record_purchase_metrics (response : option Response)
  : M (option Response) :=
  match response with
  | None => ret response
  | Some _ =>
      try_except purchase_metrics_body
        (λ e, print ("Purchase metrics collection error: " +:+ exn_message e)) ;;;
      ret response
  end.

End Hooks.

(** ** Registration with the Flask application *)

(** The functions this module hands to Flask. *)
Inductive before_function : Type := fn_start_timer.

Inductive after_function : Type :=
| fn_stop_timer
| fn_record_request_data
| fn_record_purchase_metrics.

(** The two lists of a Flask application that the registration touches. *)
Record Flask : Type := {
  before_request_funcs : list before_function;
  after_request_funcs : list after_function;
}.

(** [app.before_request(f)] and [app.after_request(f)]: Flask appends [f]
    to the list. *)
Definition before_request (f : before_function) (app : Flask) : Flask :=
  {| before_request_funcs := before_request_funcs app ++ [f];
     after_request_funcs := after_request_funcs app |}.

Definition after_request (f : after_function) (app : Flask) : Flask :=
  {| before_request_funcs := before_request_funcs app;
     after_request_funcs := after_request_funcs app ++ [f] |}.

(** [def setup_datadog_metrics(app)]. *)
Definition setup_datadog_metrics (app : Flask) : Flask :=
  let app := before_request fn_start_timer app in
  (* Register stop_timer first to have it execute before record_request_data *)
  let app := after_request fn_stop_timer app in
  let app := after_request fn_record_request_data app in
  (* Business-specific metrics (separate handler) *)
  after_request fn_record_purchase_metrics app.

(** *** How Flask runs the registered functions *)

Section Dispatch.

Variable rt : Runtime.

Definition call_before (f : before_function) : M unit :=
  match f with fn_start_timer => start_timer rt end.

Definition call_after (f : after_function) (response : option Response)
  : M (option Response) :=
  match f with
  | fn_stop_timer => stop_timer rt response
  | fn_record_request_data => record_request_data rt response
  | fn_record_purchase_metrics => record_purchase_metrics rt response
  end.

(** Flask's [preprocess_request]: the before-request functions run in the
    order they were registered. *)
Fixpoint run_before (fs : list before_function) : M unit :=
  match fs with
  | [] => ret tt
  | f :: fs' => call_before f ;;; run_before fs'
  end.

(** Each function receives the response the previous one returned. *)
Fixpoint run_after (fs : list after_function) (response : option Response)
  : M (option Response) :=
  match fs with
  | [] => ret response
  | f :: fs' => r <- call_after f response ;; run_after fs' r
  end.

(** The order in which Flask calls the after-request functions. Flask's
    [process_response] loops over [reversed(self.after_request_funcs)]:
    the function registered last is called first. *)
Definition execution_order (app : Flask) : list after_function :=
  rev (after_request_funcs app).

Definition process_response (app : Flask) (response : option Response)
  : M (option Response) :=
  run_after (execution_order app) response.

(** One request: the before-request functions, the view (the
    application's handler, which produces the response), then the
    after-request functions. *)
Definition full_dispatch_request (app : Flask) (view : M Response)
  : M (option Response) :=
  run_before (before_request_funcs app) ;;;
  r <- view ;;
  process_response app (Some r).

End Dispatch.

(** ** Metric identity *)

(** Modelled from the spec: [MetricKey], the identity of a metric (the
    name with the tag pairs sorted lexicographically by key, section 3 of
    the specification). The hooks of this repository pass their tag lists
    to the client as they are and build no such key; no function of the
    source normalizes tags. *)
Record MetricKey : Type := {
  key_name : string;
  key_tags : list (string * string);
}.

(** Modelled from the spec: the order the tag pairs are sorted in,
    lexicographic on the key. *)
Definition key_le (t1 t2 : string * string) : Prop := String.le t1.1 t2.1.

Global Instance key_le_dec : RelDecision key_le.
Proof. intros t1 t2. unfold key_le. apply _. Defined.

(** Modelled from the spec: the key formed from a name and a tag mapping
    given as the sequence of its pairs, in whatever order the caller
    listed them. *)
Definition metric_key (n : string) (T : list (string * string))
  : MetricKey :=
  {| key_name := n; key_tags := merge_sort key_le T |}.

(** ** Vocabulary of the properties *)

Section Vocabulary.

Variable rt : Runtime.

Definition amount_ranges : list string :=
  ["small"; "medium"; "large"; "premium"].

(** The range [r] agrees with the four intervals of the amounts, in the
    order of the integers and in the order of the binary64 floats. *)
Definition int_ranges (z : Z) (r : string) : Prop :=
  (z < 10 → r = "small")
  ∧ (10 ≤ z < 50 → r = "medium")
  ∧ (50 ≤ z < 200 → r = "large")
  ∧ (200 ≤ z → r = "premium").

Definition float_ranges (f : float) (r : string) : Prop :=
  ((f <? 10)%float = true → r = "small")
  ∧ ((10 <=? f)%float = true ∧ (f <? 50)%float = true → r = "medium")
  ∧ ((50 <=? f)%float = true ∧ (f <? 200)%float = true → r = "large")
  ∧ ((200 <=? f)%float = true → r = "premium").

(** The calls of [record_request_data] and [stop_timer] that the
    properties are about. *)
Definition request_count_call (req : Request) (r : Response) : StatsdCall :=
  {| call_method := increment; metric := REQUEST_COUNT; sample := VInt 1;
     tags := [ "service:webapp"; "method:" +:+ method req;
               "endpoint:" +:+ path req;
               "status:" +:+ pretty (status_code r) ] |}.

Definition error_count_call (req : Request) (r : Response) : StatsdCall :=
  {| call_method := increment; metric := ERROR_COUNT; sample := VInt 1;
     tags := [ "service:webapp"; "method:" +:+ method req;
               "endpoint:" +:+ path req;
               "status:" +:+ pretty (status_code r) ] |}.

Definition db_query_call (req : Request) : StatsdCall :=
  {| call_method := increment; metric := DB_QUERY_COUNT; sample := VInt 1;
     tags := [ "service:webapp"; "endpoint:" +:+ path req;
               "method:" +:+ method req ] |}.

Definition latency_call (req : Request) (r : Response) (elapsed : float)
  : StatsdCall :=
  {| call_method := histogram; metric := REQUEST_LATENCY_METRIC_NAME;
     sample := VFloat elapsed;
     tags := [ "service:webapp"; "endpoint:" +:+ path req;
               "method:" +:+ method req;
               "status:" +:+ pretty (status_code r) ] |}.

Definition is_error_status (status : Z) : bool :=
  (400 <=? status) && (status <? 600).

Definition db_paths : list string := ["/users"; "/database-query"; "/health"].

(** The counter increments [record_request_data] makes for a request and
    a response, in order. *)
Definition counter_calls (req : Request) (r : Response) : list StatsdCall :=
  request_count_call req r
    :: (if is_error_status (status_code r)
        then [error_count_call req r] else [])
    ++ (if bool_decide (path req ∈ db_paths) then [db_query_call req] else []).

(** The runtime with its client replaced by one that takes every call. *)
Definition quieted : Runtime :=
  {| clock := clock rt;
     statsd_raises := λ _, None;
     parse_float := parse_float rt;
     parse_int := parse_int rt;
     repr_float := repr_float rt |}.

(** The calls a hook adds to those the client had taken before it ran. *)
Definition new_calls {A} (m : M A) (w : World) : list StatsdCall :=
  drop (length (emitted w)) (emitted (after m w)).

(** Some call in [cs] is method [meth] on the metric [name]. *)
Definition emits (meth : statsd_method) (name : string)
    (cs : list StatsdCall) : Prop :=
  Exists (λ c, call_method c = meth ∧ metric c = name) cs.

(** The number of such calls. *)
Definition count_calls (meth : statsd_method) (name : string)
    (cs : list StatsdCall) : nat :=
  length (filter (λ c, call_method c = meth ∧ metric c = name) cs).

(** The three calls of the purchase block, in order: the amount gauge,
    the counter incremented by the request's quantity, and the processing
    time distribution. *)
Definition purchase_calls (req : Request) (amount_range : string)
  : list StatsdCall :=
  let purchase_amount := default (VInt 0) (attrs req !! "purchase_amount") in
  let processing_time := default (VInt 0) (attrs req !! "processing_time") in
  let quantity := default (VInt 0) (attrs req !! "quantity") in
  let product_id := default (VStr "unknown") (attrs req !! "product_id") in
  [ {| call_method := gauge; metric := PURCHASE_AMOUNT_METRIC;
       sample := purchase_amount;
       tags := [ "service:webapp"; "currency:USD";
                 "amount_range:" +:+ amount_range;
                 "product_id:" +:+ py_str rt product_id ] |};
    {| call_method := increment; metric := PURCHASE_COUNT_METRIC;
       sample := quantity;
       tags := [ "service:webapp"; "transaction_type:purchase";
                 "product_id:" +:+ py_str rt product_id ] |};
    {| call_method := distribution; metric := PROCESSING_TIME_METRIC;
       sample := processing_time;
       tags := [ "service:webapp"; "operation:purchase" ] |} ].

(** The calls the client takes from a sequence of calls: those before the
    first one it raises on. *)
Fixpoint taken (cs : list StatsdCall) : list StatsdCall :=
  match cs with
  | [] => []
  | c :: cs' =>
      match statsd_raises rt c with
      | None => c :: taken cs'
      | Some _ => []
      end
  end.

(** The request is a purchase: [POST /purchase]. *)
Definition is_purchase (req : Request) : bool :=
  String.eqb (path req) "/purchase" && String.eqb (method req) "POST".


End Vocabulary.

(** ** Vocabulary of the further properties *)

Section GaugeVocabulary.

Variable rt : Runtime.

(** The gauge calls of [record_request_data]. *)
Definition business_gauge (business_value : float) : StatsdCall :=
  {| call_method := gauge; metric := BUSINESS_METRIC;
     sample := VFloat business_value;
     tags := [ "service:webapp"; "metric_type:performance" ] |}.

Definition memory_gauge (size_mb : Z) : StatsdCall :=
  {| call_method := gauge; metric := MEMORY_USAGE_METRIC;
     sample := VInt (size_mb * 1024 * 1024);
     tags := [ "service:webapp"; "operation:memory_allocation" ] |}.

Definition cpu_gauge (execution_time : value) : StatsdCall :=
  {| call_method := gauge; metric := CPU_USAGE_METRIC;
     sample := execution_time;
     tags := [ "service:webapp"; "operation:cpu_intensive" ] |}.

(** [getattr(request, "business_value", 1.0)]. *)
Definition business_value_of (req : Request) : value :=
  default (VFloat 1) (attrs req !! "business_value").

(** The value of [request.args.get("size", 10, type=int)]. *)
Definition size_mb_of (req : Request) : Z :=
  match list_find (λ kv, kv.1 = "size") (args req) with
  | Some (_, (_, s)) => default 10 (parse_int rt s)
  | None => 10
  end.

(** The gauges [record_request_data] sets for a request, block by block. *)
Definition gauge_calls (req : Request) : list StatsdCall :=
  (if String.eqb (path req) "/delay" then
     match py_float rt (business_value_of req) with
     | Return f => [business_gauge f]
     | Raise _ => []
     end
   else [])
  ++ (if String.eqb (path req) "/memory-usage"
      then [memory_gauge (size_mb_of req)] else [])
  ++ (if String.eqb (path req) "/cpu-intensive"
      then [cpu_gauge (default (VInt 0) (attrs req !! "cpu_execution_time"))]
      else []).

(** How [record_request_data] ends when the client takes every call: the
    conversion [float(business_value)] of the [/delay] block is the one
    step that can raise. *)
Definition request_data_outcome (req : Request) (r : Response)
  : result (option Response) :=
  if String.eqb (path req) "/delay" then
    match py_float rt (business_value_of req) with
    | Return _ => Return (Some r)
    | Raise e => Raise e
    end
  else Return (Some r).

(** The purchase metrics of a request when the client takes every call. *)
Definition purchase_part (req : Request) : list StatsdCall :=
  if is_purchase req then
    match get_amount_range (default (VInt 0) (attrs req !! "purchase_amount"))
    with
    | Return range => purchase_calls rt req range
    | Raise _ => []
    end
  else [].

(** The position of a range name in the order small, medium, large,
    premium. *)
Definition range_rank (r : string) : nat :=
  if decide (r = "small") then 0
  else if decide (r = "medium") then 1
  else if decide (r = "large") then 2
  else 3.

(** A float is not-a-number: it differs from itself. *)
Definition is_nan (f : float) : bool := negb (f =? f)%float.

(** [a <= b] for two amounts of one kind: integers ([bool] counts as 0 or
    1), or floats in the order of the floats. *)
Definition amount_le (a b : value) : Prop :=
  match a, b with
  | VInt x, VInt y => x ≤ y
  | VInt x, VBool y => x ≤ Z.b2z y
  | VBool x, VInt y => Z.b2z x ≤ y
  | VBool x, VBool y => Z.b2z x ≤ Z.b2z y
  | VFloat f, VFloat g => (f <=? g)%float = true
  | _, _ => False
  end.

(** The line [record_purchase_metrics] prints for an exception. *)
Definition purchase_error_line (e : exn) : string :=
  "Purchase metrics collection error: " +:+ exn_message e.

(** What [record_purchase_metrics] prints when the client takes every
    call: a line for a purchase whose amount has no range. *)
Definition purchase_error_lines (req : Request) : list string :=
  if is_purchase req then
    match get_amount_range (default (VInt 0) (attrs req !! "purchase_amount"))
    with
    | Return _ => []
    | Raise e => [purchase_error_line e]
    end
  else [].

(** A Flask application on which nothing is registered yet. *)
Definition bare : Flask :=
  {| before_request_funcs := []; after_request_funcs := [] |}.

End GaugeVocabulary.

(** ** Example runtimes, requests and responses *)

Module Examples.

(** Unsigned decimal numerals, the integers the example runtime parses. *)
Fixpoint digits (s : string) (acc : Z) : option Z :=
  match s with
  | EmptyString => Some acc
  | String a s' =>
      let d := Z.of_N (Ascii.N_of_ascii a) - 48 in
      if (0 <=? d) && (d <=? 9) then digits s' (10 * acc + d) else None
  end.

(** A runtime whose client takes every call. The clock reads 1000, 1001,
    ... seconds; every float prints as the same placeholder (no example
    formats one). *)
Definition quiet : Runtime :=
  {| clock := λ n, nearest_float (1000 + Z.of_nat n);
     statsd_raises := λ _, None;
     parse_float := λ s,
       nearest_float <$> (if s is EmptyString then None else digits s 0);
     parse_int := λ s, if s is EmptyString then None else digits s 0;
     repr_float := λ _, "<float>" |}.

(** The same runtime with a client that rejects increments of the
    purchase counter. *)
Definition flaky : Runtime :=
  {| clock := clock quiet;
     statsd_raises := λ c,
       if decide (metric c = PURCHASE_COUNT_METRIC)
       then Some (OtherError "purchase counter rejected")
       else None;
     parse_float := parse_float quiet;
     parse_int := parse_int quiet;
     repr_float := repr_float quiet |}.

(** The same runtime with a client that raises on every call. *)
Definition loud : Runtime :=
  {| clock := clock quiet;
     statsd_raises := λ _, Some (OtherError "socket closed");
     parse_float := parse_float quiet;
     parse_int := parse_int quiet;
     repr_float := repr_float quiet |}.

Definition idle (req : Request) : World :=
  {| request := req; emitted := []; stdout := []; ticks := 0 |}.

Definition get_users : Request :=
  {| path := "/users"; method := "GET"; args := []; attrs := ∅ |}.

Definition post_purchase : Request :=
  {| path := "/purchase"; method := "POST"; args := [];
     attrs := {[ "purchase_amount" := VFloat 25;
                 "quantity" := VInt 2;
                 "processing_time" := VFloat 0.5;
                 "product_id" := VStr "sku-1" ]} |}.

Definition ok : Response := {| status_code := 200; data := "ok" |}.
Definition not_found : Response := {| status_code := 404; data := "" |}.

Definition get_delay : Request :=
  {| path := "/delay"; method := "GET"; args := [];
     attrs := {[ "business_value" := VStr "n/a" ]} |}.

Definition app : Flask :=
  setup_datadog_metrics
    {| before_request_funcs := []; after_request_funcs := [] |}.

(** The world when [GET /users] completes: [start_timer] has run. *)
Definition users_done : World := after (start_timer quiet) (idle get_users).

(** The same for [GET /delay]. *)
Definition delay_done : World := after (start_timer quiet) (idle get_delay).

(** [GET /memory-usage?unit=mb&size=64&size=1]. *)
Definition get_memory : Request :=
  {| path := "/memory-usage"; method := "GET";
     args := [("unit", "mb"); ("size", "64"); ("size", "1")]; attrs := ∅ |}.

(** A purchase whose amount was stored as text. *)
Definition post_purchase_text : Request :=
  {| path := "/purchase"; method := "POST"; args := [];
     attrs := {[ "purchase_amount" := VStr "12.50" ]} |}.

End Examples.

(** * Part II: the properties *)

(** ** The order of binary64 floats *)

Lemma compare_cont_swap (p q : positive) :
  PosDef.Pos.compare_cont Eq q p = CompOpp (PosDef.Pos.compare_cont Eq p q).
Proof. exact (eq_sym (Pos.compare_cont_antisym p q Eq)). Qed.

Lemma SFcompare_Lt_swap (x y : spec_float) :
  SFcompare x y = Some Lt → SFcompare y x = Some Gt.
Proof.
  destruct x as [sx|sx| |sx mx ex], y as [sy|sy| |sy my ey]; simpl;
    try discriminate; try (destruct sx; discriminate);
    try (destruct sy; discriminate);
    try (destruct sx, sy; (discriminate || reflexivity)).
  destruct sx, sy; try discriminate; try reflexivity;
    rewrite (Z.compare_antisym ex ey);
    destruct (ex ?= ey)%Z; simpl; try discriminate; try reflexivity;
    rewrite (compare_cont_swap mx my);
    destruct (PosDef.Pos.compare_cont Eq mx my); simpl; intros; congruence.
Qed.

(** [y < x] fails whenever [x <= y] holds, NaN included. *)
Lemma leb_ltb_false (x y : float) :
  (x <=? y)%float = true → (y <? x)%float = false.
Proof.
  rewrite leb_spec, ltb_spec. unfold SFleb, SFltb.
  destruct (SFcompare (Prim2SF y) (Prim2SF x)) as [[]|] eqn:E; try reflexivity.
  apply SFcompare_Lt_swap in E. rewrite E. discriminate.
Qed.

(** Finite floats of one sign compare by exponent, then by mantissa. *)
Lemma SFcompare_positive_Lt (m1 m2 : positive) (e1 e2 : Z) :
  SFcompare (S754_finite false m1 e1) (S754_finite false m2 e2) = Some Lt ↔
    e1 < e2 ∨ (e1 = e2 ∧ (m1 < m2)%positive).
Proof.
  cbn [SFcompare]. change (PosDef.Pos.compare_cont Eq) with Pos.compare.
  destruct (Z.compare_spec e1 e2); [destruct (Pos.compare_spec m1 m2)| |];
    split; intros H'; try discriminate H'; try reflexivity; try lia.
Qed.

Lemma SFcompare_negative_Lt (m1 m2 : positive) (e1 e2 : Z) :
  SFcompare (S754_finite true m1 e1) (S754_finite true m2 e2) = Some Lt ↔
    e2 < e1 ∨ (e1 = e2 ∧ (m2 < m1)%positive).
Proof.
  cbn [SFcompare]. change (PosDef.Pos.compare_cont Eq) with Pos.compare.
  destruct (Z.compare_spec e1 e2); [destruct (Pos.compare_spec m1 m2)| |];
    cbn [CompOpp]; split; intros H'; try discriminate H'; try reflexivity;
    try lia.
Qed.

Lemma SFcompare_Lt_trans (x y z : spec_float) :
  SFcompare x y = Some Lt → SFcompare y z = Some Lt → SFcompare x z = Some Lt.
Proof.
  destruct x as [sx|sx| |[] mx ex], y as [sy|sy| |[] my ey],
    z as [sz|sz| |[] mz ez];
    try (rewrite ?SFcompare_positive_Lt, ?SFcompare_negative_Lt; lia);
    cbn [SFcompare];
    repeat match goal with s : bool |- _ => destruct s end;
    intros; try discriminate; reflexivity.
Qed.

Lemma ltb_trans (x y z : float) :
  (x <? y)%float = true → (y <? z)%float = true → (x <? z)%float = true.
Proof.
  rewrite !ltb_spec. unfold SFltb.
  destruct (SFcompare (Prim2SF x) (Prim2SF y)) as [[]|] eqn:E1; try discriminate.
  destruct (SFcompare (Prim2SF y) (Prim2SF z)) as [[]|] eqn:E2; try discriminate.
  rewrite (SFcompare_Lt_trans _ _ _ E1 E2). reflexivity.
Qed.

(** Below a smaller literal means below a larger one. *)
Lemma ltb_literal_mono (f : float) (a b : Z) :
  (nearest_float a <? nearest_float b)%float = true →
  (f <? nearest_float b)%float = false → (f <? nearest_float a)%float = false.
Proof.
  intros Hab Hb. destruct (f <? nearest_float a)%float eqn:Ha; [|reflexivity].
  rewrite (ltb_trans _ _ _ Ha Hab) in Hb. discriminate.
Qed.

(** ** [get_amount_range] sorts amounts into four ranges *)

(** C8. On a numeric amount ([bool], [int] or [float]) [get_amount_range]
    returns, and its result is one of the four range names: "small" when
    [amount < 10], "medium" when [10 <= amount < 50], "large" when
    [50 <= amount < 200], and "premium" when [amount >= 200]. The
    conditions are those of the integers for an [int] (a [bool] counts as
    0 or 1) and those of the binary64 order for a [float]. *)
Theorem get_amount_range_buckets (amount : value) :
  numeric amount = true →
  ∃ r, get_amount_range amount = Return r
    ∧ r ∈ amount_ranges
    ∧ match amount with
      | VBool b => int_ranges (Z.b2z b) r
      | VInt z => int_ranges z r
      | VFloat f => float_ranges f r
      | VNone | VStr _ => True
      end.
Proof.
  intros Hnum. unfold get_amount_range, amount_ranges, int_ranges, float_ranges.
  destruct amount as [|b|z|f|s]; try discriminate; cbn [lt_literal].
  - (* bool: False is 0 and True is 1, both below 10 *)
    exists "small". destruct b; (split; [reflexivity|]);
      (split; [set_solver|]); cbn [Z.b2z]; repeat split; intros; lia.
  - (* int *)
    destruct (Z.ltb_spec z 10); [|destruct (Z.ltb_spec z 50);
      [|destruct (Z.ltb_spec z 200)]]; eexists; (split; [reflexivity|]);
      (split; [set_solver|]); repeat split; intros; first [reflexivity | lia].
  - (* float: the literals are the floats 10, 50 and 200 *)
    change (nearest_float 10) with 10%float.
    change (nearest_float 50) with 50%float.
    change (nearest_float 200) with 200%float.
    assert (H1 : (10 <? 50)%float = true) by reflexivity.
    assert (H2 : (50 <? 200)%float = true) by reflexivity.
    pose proof (leb_ltb_false 10 f) as A10.
    pose proof (leb_ltb_false 50 f) as A50.
    pose proof (leb_ltb_false 200 f) as A200.
    pose proof (ltb_trans f 10 50) as M1.
    pose proof (ltb_trans f 50 200) as M2.
    destruct (f <? 10)%float eqn:E10; [|destruct (f <? 50)%float eqn:E50;
      [|destruct (f <? 200)%float eqn:E200]];
      eexists; (split; [reflexivity|]); (split; [set_solver|]);
      intuition congruence.
Qed.

Lemma get_amount_range_buckets_witness :
  ∃ r, get_amount_range (VFloat 49.5) = Return r
    ∧ r ∈ amount_ranges
    ∧ float_ranges 49.5 r.
Proof. apply (get_amount_range_buckets (VFloat 49.5)). reflexivity. Defined.

(** Not-a-number is below no bound, so it falls through to the last
    branch. *)
Lemma get_amount_range_nan : get_amount_range (VFloat nan) = Return "premium".
Proof. reflexivity. Qed.

(** Values that are not numbers raise [TypeError] at the first
    comparison. *)
Lemma get_amount_range_not_numeric (amount : value) :
  numeric amount = false → ∃ msg, get_amount_range amount = Raise (TypeError msg).
Proof. destruct amount; try discriminate; intros _; eexists; reflexivity. Qed.

(** ** What the hooks emit *)

Section Emission.

Variable rt : Runtime.

Lemma statsd_silent (c : StatsdCall) (w : World) :
  silent rt →
  statsd rt c w =
    (Return tt, {| request := request w; emitted := emitted w ++ [c];
                   stdout := stdout w; ticks := ticks w |}).
Proof. intros H. unfold statsd. rewrite H. reflexivity. Qed.

Ltac run_silent H :=
  rewrite ?statsd_silent by exact H;
  cbn [request path method args attrs emitted stdout ticks
       status_code fst snd].

(** With a client that never raises, [record_request_data] emits the
    request counter, then the error counter for a 4xx/5xx status, then
    the query counter for a database path, then nothing but gauges. *)
Lemma record_request_data_emitted (w : World) (r : Response) :
  silent rt →
  ∃ gauges,
    emitted (after (record_request_data rt (Some r)) w) =
      emitted w ++ counter_calls (request w) r ++ gauges
    ∧ Forall (λ c, call_method c = gauge) gauges.
Proof.
  intros Hs. destruct w as [[p m a ats] em out tk].
  unfold record_request_data, after, bind, when, request_method, request_path,
    response_status_code, ret, counter_calls, is_error_status, db_paths,
    getattr_request, args_get_int, lift.
  run_silent Hs.
  destruct ((400 <=? status_code r) && (status_code r <? 600)); run_silent Hs;
    destruct (bool_decide (p ∈ ["/users"; "/database-query"; "/health"]));
    run_silent Hs;
    (destruct (String.eqb p "/delay"); [destruct (py_float rt _)|]);
    run_silent Hs;
    try (destruct (String.eqb p "/memory-usage")); run_silent Hs;
    try (destruct (String.eqb p "/cpu-intensive")); run_silent Hs;
    eexists; (split; [rewrite <- ?app_assoc; cbn [app]; reflexivity|]);
    repeat constructor.
Qed.

(** A run of [record_request_data] that returns met no exception, so it
    is the run with the quieted client. *)
Lemma record_request_data_returned (w : World) (response : option Response) :
  returns (outcome (record_request_data rt response) w) = true →
  record_request_data rt response w
  = record_request_data (quieted rt) response w.
Proof.
  destruct response as [r|]; [|discriminate].
  destruct w as [[p m a ats] em out tk].
  unfold record_request_data, outcome, bind, when, request_method,
    request_path, response_status_code, ret, getattr_request, args_get_int,
    lift, statsd.
  change (py_float (quieted rt)) with (py_float rt).
  repeat first
    [ progress cbn [request path method args attrs emitted stdout ticks
                    status_code fst snd returns quieted statsd_raises
                    parse_int]
    | match goal with
      | |- context [statsd_raises rt ?c] => destruct (statsd_raises rt c)
      | |- context [if ?b then _ else _] => destruct b
      | |- context [py_float rt ?v] => destruct (py_float rt v)
      end ];
    first [ discriminate | reflexivity ].
Qed.

Lemma new_calls_app {A} (m : M A) (w : World) (cs : list StatsdCall) :
  emitted (after m w) = emitted w ++ cs → new_calls m w = cs.
Proof. intros E. unfold new_calls. rewrite E. apply drop_app_length. Qed.

Lemma emits_cons meth name c cs :
  emits meth name (c :: cs) ↔
    (call_method c = meth ∧ metric c = name) ∨ emits meth name cs.
Proof. apply Exists_cons. Qed.

Lemma emits_app meth name cs1 cs2 :
  emits meth name (cs1 ++ cs2) ↔ emits meth name cs1 ∨ emits meth name cs2.
Proof. apply Exists_app. Qed.

Lemma emits_nil meth name : emits meth name [] ↔ False.
Proof. apply Exists_nil. Qed.

Lemma gauges_emit_no_increment name gauges :
  Forall (λ c, call_method c = gauge) gauges →
  emits increment name gauges ↔ False.
Proof.
  intros Hg. split; [|done]. unfold emits. rewrite Exists_exists.
  intros (c & Hin & Hm & _). rewrite Forall_forall in Hg.
  specialize (Hg c Hin). congruence.
Qed.

Lemma gauges_count_no_increment name gauges :
  Forall (λ c, call_method c = gauge) gauges →
  count_calls increment name gauges = 0%nat.
Proof.
  unfold count_calls. induction 1 as [|c cs Hc _ IH]; [reflexivity|].
  rewrite filter_cons_False; [exact IH|]. intros [Hm _]. congruence.
Qed.

Lemma count_calls_app meth name cs1 cs2 :
  count_calls meth name (cs1 ++ cs2) =
    (count_calls meth name cs1 + count_calls meth name cs2)%nat.
Proof. unfold count_calls. by rewrite filter_app, length_app. Qed.

Lemma is_error_status_spec (status : Z) :
  is_error_status status = true ↔ 400 ≤ status ≤ 599.
Proof. unfold is_error_status. rewrite andb_true_iff. lia. Qed.

(** Among the counter increments followed by gauges there is one request
    counter increment, an error counter increment exactly for a 4xx/5xx
    status, and a query counter increment exactly for a database path. *)
Lemma counters_among_calls (req : Request) (r : Response)
    (gauges : list StatsdCall) :
  Forall (λ c, call_method c = gauge) gauges →
  let cs := counter_calls req r ++ gauges in
  count_calls increment REQUEST_COUNT cs = 1%nat
  ∧ (emits increment ERROR_COUNT cs ↔ 400 ≤ status_code r ≤ 599)
  ∧ (emits increment DB_QUERY_COUNT cs ↔
       path req = "/users" ∨ path req = "/database-query"
       ∨ path req = "/health").
Proof.
  intros Hg cs. subst cs. unfold counter_calls.
  assert (Hp : bool_decide (path req ∈ db_paths) = true ↔
               path req = "/users" ∨ path req = "/database-query"
               ∨ path req = "/health").
  { rewrite bool_decide_eq_true. unfold db_paths.
    rewrite !elem_of_cons, elem_of_nil. tauto. }
  rewrite <- is_error_status_spec, <- Hp. clear Hp.
  split; [|split].
  - change (?c :: ?l) with ([c] ++ l). rewrite !count_calls_app.
    rewrite (gauges_count_no_increment _ _ Hg).
    destruct (is_error_status _), (bool_decide _); reflexivity.
  - change (?c :: ?l) with ([c] ++ l).
    rewrite !emits_app, (gauges_emit_no_increment _ _ Hg).
    destruct (is_error_status _), (bool_decide _);
      rewrite ?emits_cons, ?emits_nil;
      cbn [call_method metric request_count_call error_count_call
           db_query_call];
      intuition discriminate.
  - change (?c :: ?l) with ([c] ++ l).
    rewrite !emits_app, (gauges_emit_no_increment _ _ Hg).
    destruct (is_error_status _), (bool_decide _);
      rewrite ?emits_cons, ?emits_nil;
      cbn [call_method metric request_count_call error_count_call
           db_query_call];
      intuition discriminate.
Qed.

(** C4. With a client that takes every call, [record_request_data]
    emits exactly one increment of the request counter for a completed
    request, and it emits an increment of the error counter if and only
    if the status code is between 400 and 599 inclusive. *)
Theorem request_and_error_counters (w : World) (r : Response) :
  silent rt →
  let cs := new_calls (record_request_data rt (Some r)) w in
  count_calls increment REQUEST_COUNT cs = 1%nat
  ∧ (emits increment ERROR_COUNT cs ↔ 400 ≤ status_code r ≤ 599).
Proof.
  intros Hs cs. subst cs.
  destruct (record_request_data_emitted w r Hs) as (gauges & E & Hg).
  rewrite (new_calls_app _ _ _ E).
  destruct (counters_among_calls (request w) r gauges Hg) as (Hc & He & _).
  by split.
Qed.

(** C10. With a client that takes every call, [record_request_data]
    increments the database query counter if and only if the request path
    is "/users", "/database-query" or "/health": the path alone decides. *)
Theorem db_query_counter_by_path (w : World) (r : Response) :
  silent rt →
  let cs := new_calls (record_request_data rt (Some r)) w in
  emits increment DB_QUERY_COUNT cs ↔
    path (request w) = "/users" ∨ path (request w) = "/database-query"
    ∨ path (request w) = "/health".
Proof.
  intros Hs cs. subst cs.
  destruct (record_request_data_emitted w r Hs) as (gauges & E & Hg).
  rewrite (new_calls_app _ _ _ E).
  by destruct (counters_among_calls (request w) r gauges Hg) as (_ & _ & Hd).
Qed.

(** *** The timer *)

(** [start_timer] reads the clock once and stores the reading on the
    request; it takes nothing else from the world and cannot raise. *)
Lemma start_timer_run (w : World) :
  start_timer rt w =
    (Return tt,
     {| request :=
          {| path := path (request w); method := method (request w);
             args := args (request w);
             attrs := <["start_time" := VFloat (clock rt (ticks w))]>
                        (attrs (request w)) |};
        emitted := emitted w; stdout := stdout w; ticks := S (ticks w) |}).
Proof. reflexivity. Qed.

(** [stop_timer] on a response and a request that carries a float
    [start_time], when the client takes the call. *)
Lemma stop_timer_run (w : World) (r : Response) (t0 : float) :
  attrs (request w) !! "start_time" = Some (VFloat t0) →
  statsd_raises rt (latency_call (request w) r (clock rt (ticks w) - t0)) = None →
  stop_timer rt (Some r) w =
    (Return (Some r),
     {| request := request w;
        emitted := emitted w
          ++ [latency_call (request w) r (clock rt (ticks w) - t0)];
        stdout := stdout w; ticks := S (ticks w) |}).
Proof.
  intros Hstart Hc.
  unfold stop_timer, bind, time_time, request_attr, lift, request_path,
    request_method, response_status_code, ret, statsd.
  cbn [request emitted stdout ticks fst snd].
  rewrite Hstart. cbn [float_sub request path method status_code].
  unfold latency_call in Hc. rewrite Hc. reflexivity.
Qed.

(** The two timer hooks on their own: [start_timer] records the clock
    reading as the request's [start_time]; and [stop_timer], when it is
    called with that timestamp still on the request, emits one histogram
    sample of the latency metric whose value is the clock reading at that
    moment minus the start timestamp, tagged with exactly the four tags
    service, endpoint (the request path), method and status (the response
    status code). Whether [stop_timer] is called is a matter of the hooks
    that run before it. *)
Theorem latency_histogram_emitted (w w' : World) (r : Response) :
  silent rt →
  attrs (request w') !! "start_time" =
    attrs (request (after (start_timer rt) w)) !! "start_time" →
  let start := clock rt (ticks w) in
  let now := clock rt (ticks w') in
  attrs (request (after (start_timer rt) w)) !! "start_time"
    = Some (VFloat start)
  ∧ ∃ c, new_calls (stop_timer rt (Some r)) w' = [c]
      ∧ call_method c = histogram
      ∧ metric c = REQUEST_LATENCY_METRIC_NAME
      ∧ sample c = VFloat (now - start)
      ∧ tags c = [ "service:webapp";
                   "endpoint:" +:+ path (request w');
                   "method:" +:+ method (request w');
                   "status:" +:+ pretty (status_code r) ].
Proof.
  intros Hs Hkept start now.
  assert (Hrec : attrs (request (after (start_timer rt) w)) !! "start_time"
                 = Some (VFloat start)).
  { unfold after. rewrite start_timer_run. cbn [snd request attrs].
    apply lookup_insert_eq. }
  split; [exact Hrec|].
  rewrite Hrec in Hkept.
  exists (latency_call (request w') r (now - start)).
  split; [|by repeat split].
  apply new_calls_app. unfold after.
  rewrite (stop_timer_run w' r start Hkept (Hs _)). reflexivity.
Qed.

(** C5. For one request and response, the tags of the request counter
    increment that [record_request_data] emits and the tags of the latency
    sample that [stop_timer] emits are the same set of tags (the two lists
    are permutations of each other). *)
Theorem request_count_tags_match_latency_tags
    (w1 w2 : World) (r : Response) (t0 : float) :
  silent rt →
  request w1 = request w2 →
  attrs (request w1) !! "start_time" = Some (VFloat t0) →
  ∃ h c rest,
    new_calls (stop_timer rt (Some r)) w1 = [h]
    ∧ call_method h = histogram ∧ metric h = REQUEST_LATENCY_METRIC_NAME
    ∧ new_calls (record_request_data rt (Some r)) w2 = c :: rest
    ∧ call_method c = increment ∧ metric c = REQUEST_COUNT
    ∧ count_calls increment REQUEST_COUNT rest = 0%nat
    ∧ tags c ≡ₚ tags h
    ∧ (list_to_set (tags c) : gset string) = list_to_set (tags h).
Proof.
  intros Hs Hreq Hstart.
  destruct (record_request_data_emitted w2 r Hs) as (gauges & E & Hg).
  exists (latency_call (request w1) r (clock rt (ticks w1) - t0)),
    (request_count_call (request w2) r). eexists.
  split.
  { apply new_calls_app. unfold after.
    rewrite (stop_timer_run w1 r t0 Hstart (Hs _)). reflexivity. }
  do 2 (split; [reflexivity|]).
  split; [exact (new_calls_app _ _ _ E)|].
  do 2 (split; [reflexivity|]).
  split.
  { rewrite !count_calls_app, (gauges_count_no_increment _ _ Hg).
    destruct (is_error_status _), (bool_decide _); reflexivity. }
  assert (Hperm : tags (request_count_call (request w2) r)
                  ≡ₚ tags (latency_call (request w1) r
                             (clock rt (ticks w1) - t0))).
  { rewrite Hreq. cbn [tags request_count_call latency_call].
    apply perm_skip, perm_swap. }
  split; [exact Hperm|]. by rewrite Hperm.
Qed.

(** *** Exceptions *)

Lemma start_timer_returns (w : World) : outcome (start_timer rt) w = Return tt.
Proof. reflexivity. Qed.

(** [stop_timer(None)] raises whatever the world: [AttributeError] at the
    latest when the tag list reads [response.status_code]. *)
Lemma stop_timer_None (w : World) :
  ∃ e, stop_timer rt None w =
         (Raise e, {| request := request w; emitted := emitted w;
                      stdout := stdout w; ticks := S (ticks w) |}).
Proof.
  unfold stop_timer, bind, time_time, request_attr, lift, request_path,
    request_method, response_status_code, raise.
  cbn [request emitted stdout ticks fst snd].
  destruct (attrs (request w) !! "start_time") as [v|]; [|by eexists].
  destruct (float_sub _ v); by eexists.
Qed.

(** [record_request_data(None)] raises at its first statement and emits
    nothing. *)
Lemma record_request_data_None (w : World) :
  record_request_data rt None w =
    (Raise (AttributeError "'NoneType' object has no attribute 'status_code'"),
     w).
Proof. reflexivity. Qed.

(** Whenever [stop_timer] returns, it returns the response it was given,
    which was not [None]. *)
Lemma stop_timer_returns_its_argument (response r : option Response)
    (w : World) :
  outcome (stop_timer rt response) w = Return r →
  r = response ∧ response ≠ None.
Proof.
  destruct response as [resp|].
  - unfold outcome, stop_timer, bind, time_time, request_attr, lift,
      request_path, request_method, response_status_code, ret, statsd.
    cbn [request emitted stdout ticks fst snd].
    destruct (attrs (request w) !! "start_time") as [v|]; [|discriminate].
    destruct (float_sub _ v); [|discriminate].
    destruct (statsd_raises rt _); [discriminate|].
    cbn [fst]. intros [= <-]. done.
  - unfold outcome. destruct (stop_timer_None w) as [e ->]. discriminate.
Qed.


(** ... and it leaves the request as it was. *)
Lemma record_purchase_metrics_request (response : option Response)
    (w : World) :
  request (after (record_purchase_metrics rt response) w) = request w.
Proof.
  destruct response as [r|]; [|reflexivity].
  unfold after, record_purchase_metrics, bind, try_except, print, ret.
  assert (H : request (purchase_metrics_body rt w).2 = request w).
  { unfold purchase_metrics_body, bind, when, request_path, request_method,
      getattr_request, lift, ret, statsd.
    cbn [request emitted stdout ticks fst snd].
    destruct (_ && _); [|reflexivity].
    destruct (get_amount_range _); [|reflexivity].
    repeat (destruct (statsd_raises rt _);
            cbn [request emitted stdout ticks fst snd]; try reflexivity). }
  destruct (purchase_metrics_body rt w) as [[[]|e] w']; exact H.
Qed.

(** C1 (the code departs from it). Two of the four hooks do raise into
    their caller: for every world, [stop_timer] and [record_request_data]
    raise on a [None] response, the input [record_purchase_metrics]
    guards against. *)
Theorem unguarded_hooks_raise_on_None (w : World) :
  (∃ e, outcome (stop_timer rt None) w = Raise e)
  ∧ (∃ e, outcome (record_request_data rt None) w = Raise e).
Proof.
  split.
  - destruct (stop_timer_None w) as [e He]. exists e.
    unfold outcome. by rewrite He.
  - eexists. unfold outcome. by rewrite record_request_data_None.
Qed.

(** C2 (the code departs from it). Given [None], neither [stop_timer]
    nor [record_request_data] returns anything, so they do not return
    the response they were given; [record_purchase_metrics] does. *)
Theorem unguarded_hooks_do_not_return_None (w : World) :
  (∀ r, outcome (stop_timer rt None) w ≠ Return r)
  ∧ (∀ r, outcome (record_request_data rt None) w ≠ Return r)
  ∧ outcome (record_purchase_metrics rt None) w = Return None.
Proof.
  repeat split.
  - intros r. unfold outcome.
    destruct (stop_timer_None w) as [e ->]. discriminate.
  - intros r. unfold outcome. by rewrite record_request_data_None.
Qed.

(** *** Purchase metrics *)

Lemma taken_prefix (cs : list StatsdCall) : taken rt cs `prefix_of` cs.
Proof.
  induction cs as [|c cs IH]; cbn [taken]; [done|].
  destruct (statsd_raises rt c); [apply prefix_nil|by apply prefix_cons].
Qed.

Lemma is_purchase_spec (req : Request) :
  is_purchase req = true ↔ path req = "/purchase" ∧ method req = "POST".
Proof.
  unfold is_purchase. by rewrite andb_true_iff, !String.eqb_eq.
Qed.

(** The [try] block: nothing on a request that is no purchase; on a
    purchase, nothing when the amount has no range, else the calls the
    client takes, and it returns exactly when the client takes all
    three. *)
Lemma purchase_metrics_body_run (w : World) :
  let amount := default (VInt 0) (attrs (request w) !! "purchase_amount") in
  let body := purchase_metrics_body rt w in
  request body.2 = request w ∧ stdout body.2 = stdout w ∧
  if is_purchase (request w) then
    match get_amount_range amount with
    | Raise e => body = (Raise e, w)
    | Return range =>
        let cs := purchase_calls rt (request w) range in
        emitted body.2 = emitted w ++ taken rt cs
        ∧ (returns body.1 = true ↔ taken rt cs = cs)
    end
  else body = (Return tt, w).
Proof.
  unfold purchase_metrics_body, bind, when, request_path, request_method,
    getattr_request, lift, ret, statsd, is_purchase, purchase_calls.
  cbn [request emitted stdout ticks fst snd taken].
  destruct (_ && _); [|done].
  destruct (get_amount_range _) as [range|e]; [|done].
  repeat (destruct (statsd_raises rt _);
          cbn [request emitted stdout ticks fst snd returns];
          rewrite <- ?app_assoc; cbn [app]; rewrite ?app_nil_r);
    repeat split; try done.
Qed.

(** What [record_purchase_metrics] emits, by cases. *)
Lemma record_purchase_metrics_new_calls (response : option Response)
    (w : World) :
  new_calls (record_purchase_metrics rt response) w =
    match response with
    | None => []
    | Some _ =>
        if is_purchase (request w) then
          match get_amount_range
                  (default (VInt 0) (attrs (request w) !! "purchase_amount"))
          with
          | Return range => taken rt (purchase_calls rt (request w) range)
          | Raise _ => []
          end
        else []
    end.
Proof.
  unfold new_calls, after. destruct response as [r|].
  - pose proof (purchase_metrics_body_run w) as Hbody. cbn zeta in Hbody.
    destruct Hbody as (_ & _ & Hbody).
    unfold record_purchase_metrics, bind, try_except, print, ret.
    destruct (is_purchase (request w)).
    + destruct (get_amount_range _) as [range|e].
      * destruct Hbody as [Hem _].
        destruct (purchase_metrics_body rt w) as [[[]|e] w'];
          cbn [fst snd emitted] in *; rewrite Hem; apply drop_app_length.
      * rewrite Hbody. cbn [snd emitted]. apply drop_all.
    + rewrite Hbody. cbn [snd emitted]. apply drop_all.
  - cbn. apply drop_all.
Qed.

(** The [try] block of a purchase returns exactly when the amount has a
    range and the client takes all three calls. *)
Lemma purchase_metrics_body_returns (w : World) :
  is_purchase (request w) = true →
  returns (outcome (purchase_metrics_body rt) w) = true ↔
    ∃ range,
      get_amount_range
        (default (VInt 0) (attrs (request w) !! "purchase_amount"))
        = Return range
      ∧ taken rt (purchase_calls rt (request w) range)
        = purchase_calls rt (request w) range.
Proof.
  intros Hp. pose proof (purchase_metrics_body_run w) as Hbody.
  cbn zeta in Hbody. destruct Hbody as (_ & _ & Hbody).
  rewrite Hp in Hbody. unfold outcome.
  destruct (get_amount_range _) as [range|e].
  - destruct Hbody as [_ ->]. split; [by exists range|].
    by intros (range' & [= <-] & Ht).
  - rewrite Hbody. cbn. split; [done|]. by intros (? & [=] & _).
Qed.

Lemma purchase_calls_length (req : Request) (range : string) :
  length (purchase_calls rt req range) = 3%nat.
Proof. reflexivity. Qed.

(** For any client, one that raises included: [record_purchase_metrics]
    emits its three purchase metrics (the amount gauge, the counter
    incremented by the request's quantity, the processing time
    distribution) if and only if the response is not [None], the request
    is [POST /purchase] and no exception occurs in the emission. When the
    response is [None] or the request is no [POST /purchase] it emits
    nothing. When an exception occurs it emits the metrics the client took
    before it: an initial segment of the three, possibly empty. *)
Theorem purchase_metrics_emitted (response : option Response) (w : World) :
  let cs := new_calls (record_purchase_metrics rt response) w in
  let purchase :=
    response ≠ None
    ∧ path (request w) = "/purchase" ∧ method (request w) = "POST" in
  let no_exception := returns (outcome (purchase_metrics_body rt) w) = true in
  ((∃ range, cs = purchase_calls rt (request w) range)
     ↔ purchase ∧ no_exception)
  ∧ (¬ purchase → cs = [])
  ∧ (∀ range,
       get_amount_range
         (default (VInt 0) (attrs (request w) !! "purchase_amount"))
         = Return range →
       purchase → cs = taken rt (purchase_calls rt (request w) range))
  ∧ (∃ range, cs `prefix_of` purchase_calls rt (request w) range).
Proof.
  intros cs purchase no_exception. subst cs purchase no_exception.
  rewrite record_purchase_metrics_new_calls.
  pose proof (is_purchase_spec (request w)) as Hspec.
  destruct response as [r|]; cycle 1.
  { split; [|split; [|split]].
    - split.
      + intros [range Heq]. discriminate Heq.
      + intros [[Hne _] _]. by destruct Hne.
    - done.
    - intros range _ [Hne _]. by destruct Hne.
    - exists "". apply prefix_nil. }
  destruct (is_purchase (request w)) eqn:Hp; cycle 1.
  { assert (Hno : ¬ (path (request w) = "/purchase"
                     ∧ method (request w) = "POST")).
    { intros H. apply Hspec in H. discriminate H. }
    split; [|split; [|split]].
    - split.
      + intros [range Heq]. discriminate Heq.
      + intros [[_ H] _]. by destruct Hno.
    - done.
    - intros range _ [_ H]. by destruct Hno.
    - exists "". apply prefix_nil. }
  assert (Hyes : path (request w) = "/purchase"
                 ∧ method (request w) = "POST") by by apply Hspec.
  rewrite (purchase_metrics_body_returns w Hp).
  destruct (get_amount_range _) as [range|e]; cycle 1.
  { split; [|split; [|split]].
    - split.
      + intros [range Heq]. discriminate Heq.
      + intros (_ & range & Hf & _). discriminate Hf.
    - done.
    - intros range Hf. discriminate Hf.
    - exists "". apply prefix_nil. }
  pose proof (taken_prefix (purchase_calls rt (request w) range)) as Hpre.
  split; [|split; [|split]].
  - split.
    + intros [range' Heq]. split; [done|].
      exists range. split; [done|].
      apply prefix_length_eq; [done|].
      by rewrite Heq, !purchase_calls_length.
    + intros (_ & range' & [= <-] & Ht). by exists range.
  - intros Hnot. by destruct Hnot.
  - by intros range' [= <-] _.
  - by exists range.
Qed.



End Emission.

(** ** Runs of [record_request_data] that return *)

Section Returned.

Variable rt : Runtime.

Lemma quieted_silent : silent (quieted rt).
Proof. intros c. reflexivity. Qed.

(** Whatever the client does, when [record_request_data] returns it has
    emitted one request counter increment, an error counter increment
    exactly for a 4xx/5xx status, and a query counter increment exactly
    for a database path. *)
Lemma counters_when_returned (w : World) (r : Response) :
  returns (outcome (record_request_data rt (Some r)) w) = true →
  let cs := new_calls (record_request_data rt (Some r)) w in
  count_calls increment REQUEST_COUNT cs = 1%nat
  ∧ (emits increment ERROR_COUNT cs ↔ 400 ≤ status_code r ≤ 599)
  ∧ (emits increment DB_QUERY_COUNT cs ↔
       path (request w) = "/users" ∨ path (request w) = "/database-query"
       ∨ path (request w) = "/health").
Proof.
  intros Hret cs. subst cs. unfold new_calls, after.
  rewrite (record_request_data_returned rt w (Some r) Hret).
  destruct (record_request_data_emitted (quieted rt) w r (quieted_silent))
    as (gauges & E & Hg).
  unfold after in E. rewrite E, drop_app_length.
  exact (counters_among_calls (request w) r gauges Hg).
Qed.

End Returned.

(** ** The order in which the hooks run *)

Section DispatchOrder.

Variable rt : Runtime.

(** The registration order is the one the comment in
    [setup_datadog_metrics] describes: [stop_timer] first. *)
Lemma setup_registration_order (app : Flask) :
  after_request_funcs (setup_datadog_metrics app) =
    after_request_funcs app
      ++ [fn_stop_timer; fn_record_request_data; fn_record_purchase_metrics]
  ∧ before_request_funcs (setup_datadog_metrics app) =
      before_request_funcs app ++ [fn_start_timer].
Proof.
  unfold setup_datadog_metrics, after_request, before_request.
  cbn [after_request_funcs before_request_funcs].
  by rewrite <- !app_assoc.
Qed.

(** C6 (the code departs from it). In the order of execution that
    [setup_datadog_metrics] establishes, [stop_timer] runs after
    [record_request_data], not before it: Flask calls the after-request
    functions in the reverse of their registration order, so the hooks
    run as [record_purchase_metrics], [record_request_data],
    [stop_timer]. *)
Theorem stop_timer_runs_after_record_request_data (app : Flask) :
  execution_order (setup_datadog_metrics app) =
    [fn_record_purchase_metrics; fn_record_request_data; fn_stop_timer]
      ++ execution_order app
  ∧ ∀ response,
      process_response rt (setup_datadog_metrics app) response =
        (r1 <- record_purchase_metrics rt response ;;
         r2 <- record_request_data rt r1 ;;
         r3 <- stop_timer rt r2 ;;
         run_after rt (execution_order app) r3).
Proof.
  assert (E : execution_order (setup_datadog_metrics app) =
              [fn_record_purchase_metrics; fn_record_request_data;
               fn_stop_timer] ++ execution_order app).
  { unfold execution_order.
    rewrite (proj1 (setup_registration_order app)).
    by rewrite rev_app_distr. }
  split; [exact E|].
  intros response. unfold process_response. rewrite E. reflexivity.
Qed.

End DispatchOrder.

(** ** Metric keys do not depend on the order of the tags *)

Global Instance key_le_trans : Transitive key_le.
Proof. intros t1 t2 t3. unfold key_le. apply transitivity. Qed.

Global Instance key_le_total : Total key_le.
Proof. intros t1 t2. unfold key_le. apply total, _. Qed.

(** Pairs of a mapping are determined by their key. *)
Lemma mapping_pair_by_key (T : list (string * string))
    (t1 t2 : string * string) :
  NoDup T.*1 → t1 ∈ T → t2 ∈ T → t1.1 = t2.1 → t1 = t2.
Proof.
  induction T as [|t T IH]; [set_solver|].
  rewrite fmap_cons, NoDup_cons.
  intros [Hnotin Hnd] [->|H1]%elem_of_cons [->|H2]%elem_of_cons Hk;
    [done| | |by apply IH].
  - destruct Hnotin. rewrite Hk. by apply list_elem_of_fmap_2.
  - destruct Hnotin. rewrite <- Hk. by apply list_elem_of_fmap_2.
Qed.

(** C7. For every metric name and every tag mapping [T] (a sequence of
    pairs with distinct keys), the key formed from the name and [T] equals
    the key formed from the name and any permutation of [T]. *)
Theorem metric_key_tag_order_invariant
    (n : string) (T T' : list (string * string)) :
  NoDup T.*1 → T ≡ₚ T' → metric_key n T = metric_key n T'.
Proof.
  intros Hnd Hperm. unfold metric_key. f_equal.
  apply (Sorted_unique_strong key_le).
  - intros t1 t2 H1 H2 H12 H21.
    apply (mapping_pair_by_key T); [done| | |].
    + by rewrite merge_sort_Permutation in H1.
    + by rewrite merge_sort_Permutation, <- Hperm in H2.
    + by apply (anti_symm String.le).
  - apply Sorted_merge_sort, _.
  - apply Sorted_merge_sort, _.
  - by rewrite !merge_sort_Permutation.
Qed.

Lemma metric_key_tag_order_invariant_witness :
  metric_key "request_count"
    [("service", "webapp"); ("method", "GET"); ("endpoint", "/users")]
  = metric_key "request_count"
      [("method", "GET"); ("service", "webapp"); ("endpoint", "/users")].
Proof.
  apply metric_key_tag_order_invariant.
  - apply (bool_decide_unpack _). vm_compute. exact I.
  - apply perm_swap.
Defined.

(** ** Concrete runs *)

Module Runs.

Import Examples.

Lemma quiet_silent : silent quiet.
Proof. intros c. reflexivity. Qed.

(** *** Instances of the theorems *)

Lemma latency_histogram_emitted_witness :
  attrs (request (after (start_timer quiet) (idle get_users))) !! "start_time"
    = Some (VFloat (clock quiet 0))
  ∧ ∃ c, new_calls (stop_timer quiet (Some ok)) users_done = [c]
      ∧ call_method c = histogram
      ∧ metric c = REQUEST_LATENCY_METRIC_NAME
      ∧ sample c = VFloat (clock quiet 1 - clock quiet 0)
      ∧ tags c = [ "service:webapp"; "endpoint:" +:+ "/users";
                   "method:" +:+ "GET"; "status:" +:+ pretty 200 ].
Proof.
  apply (latency_histogram_emitted quiet (idle get_users) users_done ok).
  - exact quiet_silent.
  - reflexivity.
Defined.

Lemma request_and_error_counters_witness :
  let cs := new_calls (record_request_data quiet (Some not_found))
              (idle get_users) in
  count_calls increment REQUEST_COUNT cs = 1%nat
  ∧ (emits increment ERROR_COUNT cs ↔ 400 ≤ 404 ≤ 599).
Proof.
  apply (request_and_error_counters quiet (idle get_users) not_found).
  exact quiet_silent.
Defined.

Lemma db_query_counter_by_path_witness :
  let cs := new_calls (record_request_data quiet (Some ok)) (idle get_users) in
  emits increment DB_QUERY_COUNT cs ↔
    "/users" = "/users" ∨ "/users" = "/database-query" ∨ "/users" = "/health".
Proof.
  apply (db_query_counter_by_path quiet (idle get_users) ok).
  exact quiet_silent.
Defined.

Lemma request_count_tags_match_latency_tags_witness :
  ∃ h c rest,
    new_calls (stop_timer quiet (Some ok)) users_done = [h]
    ∧ call_method h = histogram ∧ metric h = REQUEST_LATENCY_METRIC_NAME
    ∧ new_calls (record_request_data quiet (Some ok)) users_done = c :: rest
    ∧ call_method c = increment ∧ metric c = REQUEST_COUNT
    ∧ count_calls increment REQUEST_COUNT rest = 0%nat
    ∧ tags c ≡ₚ tags h
    ∧ (list_to_set (tags c) : gset string) = list_to_set (tags h).
Proof.
  apply (request_count_tags_match_latency_tags quiet users_done users_done ok
           (clock quiet 0)).
  - exact quiet_silent.
  - reflexivity.
  - reflexivity.
Defined.

Lemma purchase_metrics_emitted_witness :
  let w := idle post_purchase in
  let cs := new_calls (record_purchase_metrics flaky (Some ok)) w in
  let purchase :=
    Some ok ≠ None
    ∧ path (request w) = "/purchase" ∧ method (request w) = "POST" in
  let no_exception :=
    returns (outcome (purchase_metrics_body flaky) w) = true in
  ((∃ range, cs = purchase_calls flaky (request w) range)
     ↔ purchase ∧ no_exception)
  ∧ (¬ purchase → cs = [])
  ∧ (∀ range,
       get_amount_range
         (default (VInt 0) (attrs (request w) !! "purchase_amount"))
         = Return range →
       purchase → cs = taken flaky (purchase_calls flaky (request w) range))
  ∧ (∃ range, cs `prefix_of` purchase_calls flaky (request w) range).
Proof.
  exact (purchase_metrics_emitted flaky (Some ok) (idle post_purchase)).
Defined.


(** *** Runs on which the code departs from the specification *)

(** What a client that raises at the purchase counter leaves behind: the
    amount gauge it took before, and the printed error. *)
Lemma purchase_partial_emission :
  new_calls (record_purchase_metrics flaky (Some ok)) (idle post_purchase) =
    [ {| call_method := gauge; metric := "ecommerce.purchase_amount";
         sample := VFloat 25;
         tags := [ "service:webapp"; "currency:USD"; "amount_range:medium";
                   "product_id:sku-1" ] |} ]
  ∧ stdout (after (record_purchase_metrics flaky (Some ok))
              (idle post_purchase)) =
      [ "Purchase metrics collection error: purchase counter rejected" ].
Proof. split; vm_compute; reflexivity. Qed.

(** A whole request through Flask: the request counter (and the query
    counter) are emitted before the latency sample. *)
Lemma request_count_emitted_before_latency :
  emitted (after (full_dispatch_request quiet app (ret ok)) (idle get_users)) =
    [ request_count_call get_users ok;
      db_query_call get_users;
      latency_call get_users ok 1 ].
Proof. vm_compute. reflexivity. Qed.

(** [stop_timer] on [None], after [start_timer] has run. *)
Lemma stop_timer_on_None :
  outcome (stop_timer quiet None) users_done =
    Raise (AttributeError "'NoneType' object has no attribute 'status_code'").
Proof. vm_compute. reflexivity. Qed.

(** [record_request_data] on a response that is not [None]: a
    [business_value] that is no number raises into the caller, after the
    counters were emitted. *)
Lemma record_request_data_on_bad_business_value :
  outcome (record_request_data quiet (Some ok)) (idle get_delay) =
    Raise (ValueError "could not convert string to float: 'n/a'")
  ∧ new_calls (record_request_data quiet (Some ok)) (idle get_delay) =
      [ request_count_call get_delay ok ].
Proof. split; vm_compute; reflexivity. Qed.

(** [stop_timer] before any [start_timer]: the request has no
    [start_time]. *)
Lemma stop_timer_without_start :
  outcome (stop_timer quiet (Some ok)) (idle get_users) =
    Raise (AttributeError "'Request' object has no attribute 'start_time'").
Proof. vm_compute. reflexivity. Qed.

(** A client that raises is heard by the callers of [stop_timer] and
    [record_request_data], but not by the caller of
    [record_purchase_metrics], which prints the error and returns the
    response. *)
Lemma client_exception_propagates :
  outcome (stop_timer loud (Some ok)) users_done
    = Raise (OtherError "socket closed")
  ∧ outcome (record_request_data loud (Some ok)) (idle get_users)
    = Raise (OtherError "socket closed")
  ∧ record_purchase_metrics loud (Some ok) (idle post_purchase)
    = (Return (Some ok),
       {| request := post_purchase; emitted := [];
          stdout := ["Purchase metrics collection error: socket closed"];
          ticks := 0 |}).
Proof. repeat split; vm_compute; reflexivity. Qed.

End Runs.

(** * Part III: further properties of the hooks *)

(** ** [record_request_data] with a client that takes every call *)

Section RequestData.

Variable rt : Runtime.

Hypothesis Hsilent : silent rt.

Ltac run_quiet :=
  rewrite ?(statsd_silent rt) by exact Hsilent;
  cbn [request path method args attrs emitted stdout ticks
       status_code fst snd app].

(** The whole run: the counter increments, then the gauges, and the
    outcome of the [/delay] conversion. *)
Lemma record_request_data_silent_run (w : World) (r : Response) :
  record_request_data rt (Some r) w =
    (request_data_outcome rt (request w) r,
     {| request := request w;
        emitted := emitted w ++ counter_calls (request w) r
                     ++ gauge_calls rt (request w);
        stdout := stdout w; ticks := ticks w |}).
Proof.
  destruct w as [[p m a ats] em out tk].
  unfold record_request_data, request_data_outcome, gauge_calls, bind, when,
    request_method, request_path, response_status_code, ret, counter_calls,
    is_error_status, db_paths, getattr_request, args_get_int, lift,
    business_value_of, size_mb_of.
  run_quiet.
  destruct ((400 <=? status_code r) && (status_code r <? 600)); run_quiet;
    destruct (bool_decide (p ∈ ["/users"; "/database-query"; "/health"]));
    run_quiet;
    (destruct (String.eqb_spec p "/delay") as [->|_];
     [destruct (py_float rt _)|]); run_quiet;
    try (destruct (String.eqb_spec p "/memory-usage") as [->|_]); run_quiet;
    try (destruct (String.eqb_spec p "/cpu-intensive") as [->|_]); run_quiet;
    try discriminate;
    rewrite <- ?app_assoc; cbn [app]; reflexivity.
Qed.

Lemma record_request_data_new_calls (w : World) (r : Response) :
  new_calls (record_request_data rt (Some r)) w =
    counter_calls (request w) r ++ gauge_calls rt (request w).
Proof.
  apply new_calls_app. unfold after.
  by rewrite record_request_data_silent_run.
Qed.

Lemma counter_calls_are_increments (req : Request) (r : Response) :
  Forall (λ c, call_method c = increment) (counter_calls req r).
Proof.
  unfold counter_calls.
  destruct (is_error_status _), (bool_decide _); repeat constructor.
Qed.

(** X1. With a client that takes every call, [record_request_data] on a
    response raises in one case only: the request is [/delay] and
    [float(business_value)] raises; it then raises that exception, after
    the counters and before any gauge. In every other case it returns the
    response it was given. *)
Theorem record_request_data_raises_only_on_delay (w : World) (r : Response) :
  (∀ e, outcome (record_request_data rt (Some r)) w = Raise e ↔
        path (request w) = "/delay"
        ∧ py_float rt (business_value_of (request w)) = Raise e)
  ∧ (outcome (record_request_data rt (Some r)) w = Return (Some r) ↔
       path (request w) ≠ "/delay"
       ∨ returns (py_float rt (business_value_of (request w))) = true)
  ∧ (returns (outcome (record_request_data rt (Some r)) w) = false →
     new_calls (record_request_data rt (Some r)) w
     = counter_calls (request w) r).
Proof.
  rewrite record_request_data_new_calls. unfold outcome.
  rewrite record_request_data_silent_run. cbn [fst].
  unfold request_data_outcome, gauge_calls.
  destruct (String.eqb_spec (path (request w)) "/delay") as [E|E].
  - rewrite E. cbn [String.eqb Ascii.eqb Bool.eqb].
    destruct (py_float rt _) as [f|e']; cbn [returns app].
    + split; [|split]; [| |discriminate].
      * intros e. split; [discriminate|]. intros [_ H]. discriminate H.
      * split; [by right|done].
    + split; [|split].
      * intros e. split; [by intros [= ->]|]. by intros [_ [= ->]].
      * split; [discriminate|]. intros [H|H]; [done|discriminate H].
      * intros _. by rewrite app_nil_r.
  - cbn [returns]. split; [|split].
    + intros e. split; [discriminate|]. intros [H _]. by destruct E.
    + split; [by left|done].
    + discriminate.
Qed.

(** The first value of a key in the query arguments. *)
Lemma list_find_first_key (key s : string) (pre post : list (string * string)) :
  key ∉ pre.*1 →
  list_find (λ kv, kv.1 = key) (pre ++ (key, s) :: post)
  = Some (length pre, (key, s)).
Proof.
  induction pre as [|[k v] pre IH]; cbn [fmap list_fmap app length]; intros Hn.
  - cbn. by rewrite decide_True.
  - rewrite not_elem_of_cons in Hn. destruct Hn as [Hk Hn].
    cbn. rewrite decide_False by (intros E; apply Hk; symmetry; exact E).
    cbn in IH. rewrite (IH Hn). reflexivity.
Qed.

Lemma list_find_no_key (key : string) (l : list (string * string)) :
  key ∉ l.*1 → list_find (λ kv, kv.1 = key) l = None.
Proof.
  intros Hn. apply list_find_None, Forall_forall. intros [k v] Hin Hk.
  cbn in Hk. subst k. apply Hn. by apply (list_elem_of_fmap_2 fst _ (key, v)).
Qed.

(** X2. With a client that takes every call, [record_request_data] on
    [/memory-usage] sets the memory gauge, after the counters, to the
    [size] query argument times 1024 * 1024: the first [size] argument when
    there are several, and 10 when the argument is missing or is no
    integer. A malformed [size] never raises. *)
Theorem memory_gauge_size_falls_back_to_10 (w : World) (r : Response) :
  path (request w) = "/memory-usage" →
  ∃ size_mb,
    outcome (record_request_data rt (Some r)) w = Return (Some r)
    ∧ new_calls (record_request_data rt (Some r)) w
      = counter_calls (request w) r ++ [memory_gauge size_mb]
    ∧ ("size" ∉ (args (request w)).*1 → size_mb = 10)
    ∧ (∀ pre s post,
         args (request w) = pre ++ ("size", s) :: post → "size" ∉ pre.*1 →
         size_mb = match parse_int rt s with Some z => z | None => 10 end).
Proof.
  intros Hp. exists (size_mb_of rt (request w)).
  rewrite record_request_data_new_calls. unfold outcome.
  rewrite record_request_data_silent_run. cbn [fst].
  unfold request_data_outcome, gauge_calls, size_mb_of. rewrite Hp.
  cbn [String.eqb Ascii.eqb Bool.eqb app].
  split; [done|]. split; [done|]. split.
  - intros Hn. by rewrite (list_find_no_key _ _ Hn).
  - intros pre s post -> Hn. rewrite (list_find_first_key _ _ _ _ Hn).
    by destruct (parse_int rt s).
Qed.

Lemma counters_emit_no_gauge (name : string) (req : Request) (r : Response) :
  emits gauge name (counter_calls req r) ↔ False.
Proof.
  split; [|done]. unfold emits. rewrite Exists_exists.
  intros (c & Hin & Hm & _).
  pose proof (counter_calls_are_increments req r) as Hinc.
  rewrite Forall_forall in Hinc. specialize (Hinc c Hin). congruence.
Qed.

(** X3. With a client that takes every call, the path alone selects the
    gauge [record_request_data] sets: the business gauge on [/delay] (when
    [float(business_value)] returns), the memory gauge on [/memory-usage],
    the CPU gauge on [/cpu-intensive], and no gauge on any other path. *)
Theorem gauges_by_path (w : World) (r : Response) :
  let cs := new_calls (record_request_data rt (Some r)) w in
  (emits gauge BUSINESS_METRIC cs ↔
     path (request w) = "/delay"
     ∧ returns (py_float rt (business_value_of (request w))) = true)
  ∧ (emits gauge MEMORY_USAGE_METRIC cs ↔ path (request w) = "/memory-usage")
  ∧ (emits gauge CPU_USAGE_METRIC cs ↔ path (request w) = "/cpu-intensive")
  ∧ (path (request w) ∉ ["/delay"; "/memory-usage"; "/cpu-intensive"] →
     Forall (λ c, call_method c = increment) cs).
Proof.
  intros cs. subst cs. rewrite record_request_data_new_calls.
  rewrite !emits_app, !counters_emit_no_gauge. unfold gauge_calls.
  rewrite !not_elem_of_cons.
  destruct (String.eqb_spec (path (request w)) "/delay") as [E1|E1];
    destruct (String.eqb_spec (path (request w)) "/memory-usage") as [E2|E2];
    destruct (String.eqb_spec (path (request w)) "/cpu-intensive") as [E3|E3];
    try (rewrite E1 in E2; discriminate E2);
    try (rewrite E1 in E3; discriminate E3);
    try (rewrite E2 in E3; discriminate E3);
    try destruct (py_float rt _); cbn [returns app];
    rewrite ?emits_app, ?emits_cons, ?emits_nil;
    cbn [call_method metric business_gauge memory_gauge cpu_gauge];
    (split; [|split; [|split]]); try (intuition (discriminate || congruence)).
  all: intros _; rewrite app_nil_r; apply counter_calls_are_increments.
Qed.

(** X4. With a client that takes every call, [record_request_data] emits
    at least one and at most three metrics for a request, at most one of
    them a gauge: the database paths and the three gauge paths are all
    different. *)
Theorem at_most_three_metrics (w : World) (r : Response) :
  let cs := new_calls (record_request_data rt (Some r)) w in
  (1 ≤ length cs ≤ 3)%nat
  ∧ (length (filter (λ c, call_method c = gauge) cs) ≤ 1)%nat.
Proof.
  intros cs. subst cs. rewrite record_request_data_new_calls.
  unfold counter_calls, gauge_calls, db_paths.
  destruct (bool_decide_reflect
              (path (request w) ∈ ["/users"; "/database-query"; "/health"]))
    as [Hdb|_].
  - (* a database path is none of the gauge paths *)
    rewrite !elem_of_cons, elem_of_nil in Hdb.
    destruct Hdb as [->|[->|[->|[]]]];
      destruct (is_error_status _); cbn;
      repeat case_decide; try discriminate; cbn; lia.
  - destruct (String.eqb_spec (path (request w)) "/delay") as [E|_];
      [|destruct (String.eqb_spec (path (request w)) "/memory-usage")
          as [E|_];
        [|destruct (String.eqb_spec (path (request w)) "/cpu-intensive")
            as [E|_]]];
      try rewrite E;
      try destruct (py_float rt _); destruct (is_error_status _); cbn;
      repeat case_decide; try discriminate; cbn; lia.
Qed.

End RequestData.

(** ** What the hooks leave alone, whatever the client does *)

Section Frame.

Variable rt : Runtime.

Ltac solve_calls :=
  repeat (constructor; [first [left; reflexivity | right; reflexivity]|]);
  constructor.

(** [record_request_data] touches nothing but the list of emitted metrics,
    to which it appends counter increments and gauges. *)
Lemma record_request_data_frame (response : option Response) (w : World) :
  let w' := after (record_request_data rt response) w in
  request w' = request w ∧ stdout w' = stdout w ∧ ticks w' = ticks w
  ∧ ∃ cs, emitted w' = emitted w ++ cs
      ∧ Forall (λ c, call_method c = increment ∨ call_method c = gauge) cs.
Proof.
  destruct response as [r|];
    [|repeat split; exists []; split; [symmetry; apply app_nil_r|constructor]].
  destruct w as [[p m a ats] em out tk].
  unfold record_request_data, after, bind, when, request_method,
    request_path, response_status_code, ret, getattr_request, args_get_int,
    lift, statsd.
  repeat first
    [ progress cbn [request path method args attrs emitted stdout ticks
                    status_code fst snd]
    | match goal with
      | |- context [statsd_raises rt ?c] => destruct (statsd_raises rt c)
      | |- context [if ?b then _ else _] => destruct b
      | |- context [py_float rt ?v] => destruct (py_float rt v)
      end ];
    (split; [reflexivity|split; [reflexivity|split; [reflexivity|]]]);
    first [ exists []; split; [symmetry; apply app_nil_r|constructor]
          | eexists; split; [rewrite <- ?app_assoc; reflexivity|solve_calls] ].
Qed.

(** [stop_timer] reads the clock once, and either raises without emitting
    anything or emits one histogram call and returns its argument. *)
Lemma stop_timer_frame (response : option Response) (w : World) :
  let w' := after (stop_timer rt response) w in
  request w' = request w ∧ stdout w' = stdout w ∧ ticks w' = S (ticks w)
  ∧ ((emitted w' = emitted w
      ∧ returns (outcome (stop_timer rt response) w) = false)
     ∨ (∃ c, emitted w' = emitted w ++ [c]
          ∧ call_method c = histogram
          ∧ metric c = REQUEST_LATENCY_METRIC_NAME
          ∧ outcome (stop_timer rt response) w = Return response)).
Proof.
  unfold stop_timer, after, outcome, bind, time_time, request_attr, lift,
    request_path, request_method, response_status_code, ret, raise, statsd.
  cbn [request emitted stdout ticks fst snd].
  destruct (attrs (request w) !! "start_time") as [v|];
    [|by repeat split; left].
  cbn [fst snd]. destruct (float_sub _ v) as [elapsed|e];
    [|by repeat split; left].
  destruct response as [r|]; cbn [fst snd request emitted stdout ticks];
    [|by repeat split; left].
  destruct (statsd_raises rt _); cbn [fst snd request emitted stdout ticks];
    [by repeat split; left|].
  repeat split. right. eexists. by repeat split.
Qed.

(** [record_purchase_metrics] keeps the request and the clock, appends to
    the emitted metrics, and prints at most one line. *)
Lemma record_purchase_metrics_frame (response : option Response) (w : World) :
  let w' := after (record_purchase_metrics rt response) w in
  request w' = request w ∧ ticks w' = ticks w
  ∧ (∃ cs, emitted w' = emitted w ++ cs
       ∧ Forall (λ c, call_method c ≠ histogram) cs)
  ∧ (∃ lines, stdout w' = stdout w ++ lines ∧ (length lines ≤ 1)%nat).
Proof.
  destruct response as [r|]; cycle 1.
  { split; [reflexivity|]. split; [reflexivity|].
    split; exists []; (split; [symmetry; apply app_nil_r|]);
      [constructor|cbn; lia]. }
  unfold record_purchase_metrics, purchase_metrics_body, after, bind,
    try_except, print, ret, when, request_path, request_method,
    getattr_request, lift, statsd.
  repeat first
    [ progress cbn [request emitted stdout ticks fst snd]
    | match goal with
      | |- context [statsd_raises rt ?c] => destruct (statsd_raises rt c)
      | |- context [if ?b then _ else _] => destruct b
      | |- context [get_amount_range ?v] => destruct (get_amount_range v)
      end ];
    (split; [reflexivity|split; [reflexivity|split]]);
    first
      [ solve [exists []; split; [symmetry; apply app_nil_r|apply Forall_nil_2]]
      | solve [eexists; split; [rewrite <- ?app_assoc; reflexivity|];
               repeat (apply Forall_cons_2; [discriminate|]);
               apply Forall_nil_2]
      | solve [exists []; split; [symmetry; apply app_nil_r|cbn; lia]]
      | solve [eexists; split; [reflexivity|cbn; lia]] ].
Qed.

(** X5. Whatever the client does and whatever the response, the three
    after-request hooks leave the request object as it was; [stop_timer]
    and [record_request_data] print nothing; [record_request_data] and
    [record_purchase_metrics] never read the clock, [stop_timer] reads it
    once. *)
Theorem after_hooks_keep_request (response : option Response) (w : World) :
  request (after (stop_timer rt response) w) = request w
  ∧ request (after (record_request_data rt response) w) = request w
  ∧ request (after (record_purchase_metrics rt response) w) = request w
  ∧ stdout (after (stop_timer rt response) w) = stdout w
  ∧ stdout (after (record_request_data rt response) w) = stdout w
  ∧ ticks (after (stop_timer rt response) w) = S (ticks w)
  ∧ ticks (after (record_request_data rt response) w) = ticks w
  ∧ ticks (after (record_purchase_metrics rt response) w) = ticks w.
Proof.
  destruct (stop_timer_frame response w) as (H1 & H2 & H3 & _).
  destruct (record_request_data_frame response w) as (H4 & H5 & H6 & _).
  destruct (record_purchase_metrics_frame response w) as (H7 & H8 & _).
  by repeat split.
Qed.

(** X6. Whatever the client does, every hook only appends to the metrics
    emitted so far: none removes or rewrites a metric that was already
    emitted, also when it raises. *)
Theorem hooks_only_append_metrics (response : option Response) (w : World) :
  emitted (after (start_timer rt) w) = emitted w
  ∧ emitted w `prefix_of` emitted (after (stop_timer rt response) w)
  ∧ emitted w `prefix_of` emitted (after (record_request_data rt response) w)
  ∧ emitted w
      `prefix_of` emitted (after (record_purchase_metrics rt response) w).
Proof.
  split; [reflexivity|]. split; [|split].
  - destruct (stop_timer_frame response w)
      as (_ & _ & _ & [[-> _]|(c & -> & _)]); [done|by apply prefix_app_r].
  - destruct (record_request_data_frame response w)
      as (_ & _ & _ & cs & -> & _). by apply prefix_app_r.
  - destruct (record_purchase_metrics_frame response w)
      as (_ & _ & (cs & -> & _) & _). by apply prefix_app_r.
Qed.

(** X7. [start_timer] changes nothing but the [start_time] attribute and
    the clock: it keeps the path, the method, the query arguments and every
    other attribute of the request, emits nothing and prints nothing. *)
Theorem start_timer_changes_only_start_time (w : World) :
  let w' := after (start_timer rt) w in
  path (request w') = path (request w)
  ∧ method (request w') = method (request w)
  ∧ args (request w') = args (request w)
  ∧ (∀ name, name ≠ "start_time" →
       attrs (request w') !! name = attrs (request w) !! name)
  ∧ emitted w' = emitted w ∧ stdout w' = stdout w
  ∧ ticks w' = S (ticks w).
Proof.
  unfold after. rewrite start_timer_run. cbn [snd request path method args
    attrs emitted stdout ticks].
  repeat split. intros name Hne. by apply lookup_insert_ne.
Qed.

(** X8. Whatever the client does, [stop_timer] emits a metric exactly when
    it returns: one histogram call of the latency metric. When it raises it
    has emitted nothing; on a request without [start_time] it raises
    [AttributeError]. *)
Theorem stop_timer_emits_iff_returns (response : option Response)
    (w : World) :
  let cs := new_calls (stop_timer rt response) w in
  (returns (outcome (stop_timer rt response) w) = true →
   outcome (stop_timer rt response) w = Return response
   ∧ ∃ c, cs = [c] ∧ call_method c = histogram
        ∧ metric c = REQUEST_LATENCY_METRIC_NAME)
  ∧ (returns (outcome (stop_timer rt response) w) = false → cs = [])
  ∧ (attrs (request w) !! "start_time" = None →
     outcome (stop_timer rt response) w
     = Raise (AttributeError
                "'Request' object has no attribute 'start_time'")).
Proof.
  intros cs. subst cs. unfold new_calls.
  destruct (stop_timer_frame response w)
    as (_ & _ & _ & [[-> Hr]|(c & -> & Hm & Hn & Hret)]).
  - rewrite Hr, drop_all. split; [discriminate|]. split; [done|].
    intros Hnone. clear Hr. unfold outcome, stop_timer, bind, time_time,
      request_attr. cbn [request emitted stdout ticks fst snd].
    by rewrite Hnone.
  - rewrite Hret, drop_app_length. cbn [returns]. split; [|split].
    + intros _. split; [done|]. by exists c.
    + discriminate.
    + intros Hnone. exfalso. revert Hret.
      unfold outcome, stop_timer, bind, time_time, request_attr.
      cbn [request emitted stdout ticks fst snd]. by rewrite Hnone.
Qed.

End Frame.

(** ** The ranges of [get_amount_range] *)

Section AmountRanges.

(** Swapping the arguments of a comparison reverses its result. *)
Lemma SFcompare_swap (x y : spec_float) :
  SFcompare y x = CompOpp <$> SFcompare x y.
Proof.
  destruct x as [sx|sx| |sx mx ex], y as [sy|sy| |sy my ey];
    cbn [SFcompare fmap option_fmap option_map CompOpp];
    try reflexivity;
    try (destruct sx; reflexivity); try (destruct sy; reflexivity);
    try (destruct sx, sy; reflexivity).
  destruct sx, sy; try reflexivity;
    rewrite (Z.compare_antisym ex ey);
    destruct (ex ?= ey)%Z; cbn [CompOpp]; try reflexivity;
    rewrite (compare_cont_swap mx my);
    destruct (PosDef.Pos.compare_cont Eq mx my); reflexivity.
Qed.

(** Only not-a-number is incomparable. *)
Lemma SFcompare_None (x y : spec_float) :
  SFcompare x y = None → x = S754_nan ∨ y = S754_nan.
Proof.
  destruct x as [sx|sx| |sx mx ex], y as [sy|sy| |sy my ey];
    cbn [SFcompare]; try discriminate; auto.
Qed.

Lemma SFcompare_refl (x : spec_float) :
  x ≠ S754_nan → SFcompare x x = Some Eq.
Proof.
  destruct x as [s|s| |s m e]; cbn [SFcompare]; try done.
  - by destruct s.
  - intros _. rewrite Z.compare_refl.
    change (PosDef.Pos.compare_cont Eq m m) with (Pos.compare m m).
    rewrite Pos.compare_refl. by destruct s.
Qed.

(** Floats that compare equal compare alike with every float. *)
Lemma SFcompare_Eq_left (x y z : spec_float) :
  SFcompare x y = Some Eq → SFcompare x z = SFcompare y z.
Proof.
  destruct x as [sx|sx| |sx mx ex], y as [sy|sy| |sy my ey];
    cbn [SFcompare]; try discriminate;
    try (destruct sx; discriminate); try (destruct sy; discriminate).
  - reflexivity.
  - destruct sx, sy; try discriminate; reflexivity.
  - change (PosDef.Pos.compare_cont Eq mx my) with (Pos.compare mx my).
    destruct sx, sy; try discriminate;
      destruct (Z.compare_spec ex ey); try discriminate;
      destruct (Pos.compare_spec mx my); try discriminate;
      intros _; by subst.
Qed.

Lemma is_nan_spec (f : float) : is_nan f = true ↔ Prim2SF f = S754_nan.
Proof.
  unfold is_nan. rewrite negb_true_iff, (FloatAxioms.eqb_spec f f).
  unfold SFeqb. split.
  - intros H. destruct (Prim2SF f) as [s|s| |s m e] eqn:E; [| |done|];
      rewrite SFcompare_refl in H by done; discriminate H.
  - by intros ->.
Qed.

(** Not-a-number is below nothing. *)
Lemma ltb_nan (f g : float) : is_nan f = true → (f <? g)%float = false.
Proof.
  rewrite is_nan_spec, ltb_spec. intros ->. reflexivity.
Qed.

(** The order of the floats is total apart from not-a-number. *)
Lemma ltb_false_leb (f g : float) :
  (f <? g)%float = false → is_nan g = false →
  (g <=? f)%float = true ∨ is_nan f = true.
Proof.
  rewrite ltb_spec, leb_spec. unfold SFltb, SFleb. intros Hlt Hg.
  rewrite (SFcompare_swap (Prim2SF f) (Prim2SF g)).
  destruct (SFcompare (Prim2SF f) (Prim2SF g)) as [[]|] eqn:E;
    try discriminate Hlt; cbn; auto.
  right. apply is_nan_spec.
  destruct (SFcompare_None _ _ E) as [H|H]; [done|].
  apply is_nan_spec in H. congruence.
Qed.

(** [f <= g] and [g < h] give [f < h]. *)
Lemma leb_ltb_trans (f g h : float) :
  (f <=? g)%float = true → (g <? h)%float = true → (f <? h)%float = true.
Proof.
  rewrite leb_spec. unfold SFleb. intros Hle Hlt.
  destruct (SFcompare (Prim2SF f) (Prim2SF g)) as [[]|] eqn:E;
    try discriminate Hle.
  - rewrite ltb_spec in *. unfold SFltb in *.
    by rewrite (SFcompare_Eq_left _ _ _ E).
  - apply (ltb_trans f g h); [|done].
    rewrite ltb_spec. unfold SFltb. by rewrite E.
Qed.

(** X9. For an integer amount the range names the interval the amount lies
    in: "small" exactly below 10 (negative amounts included), "medium"
    exactly from 10 to 49, "large" exactly from 50 to 199, "premium"
    exactly from 200 on. *)
Theorem get_amount_range_int_intervals (z : Z) :
  (get_amount_range (VInt z) = Return "small" ↔ z < 10)
  ∧ (get_amount_range (VInt z) = Return "medium" ↔ 10 ≤ z < 50)
  ∧ (get_amount_range (VInt z) = Return "large" ↔ 50 ≤ z < 200)
  ∧ (get_amount_range (VInt z) = Return "premium" ↔ 200 ≤ z).
Proof.
  unfold get_amount_range. cbn [lt_literal].
  destruct (Z.ltb_spec z 10); [|destruct (Z.ltb_spec z 50);
    [|destruct (Z.ltb_spec z 200)]];
    repeat split; intros; try discriminate; try reflexivity; lia.
Qed.

(** X10. For a float amount the range names the interval of the float
    order the amount lies in, and not-a-number, which lies in none, is
    "premium". *)
Theorem get_amount_range_float_intervals (f : float) :
  (get_amount_range (VFloat f) = Return "small" ↔ (f <? 10)%float = true)
  ∧ (get_amount_range (VFloat f) = Return "medium" ↔
       (10 <=? f)%float = true ∧ (f <? 50)%float = true)
  ∧ (get_amount_range (VFloat f) = Return "large" ↔
       (50 <=? f)%float = true ∧ (f <? 200)%float = true)
  ∧ (get_amount_range (VFloat f) = Return "premium" ↔
       (200 <=? f)%float = true ∨ is_nan f = true).
Proof.
  unfold get_amount_range. cbn [lt_literal].
  change (nearest_float 10) with 10%float.
  change (nearest_float 50) with 50%float.
  change (nearest_float 200) with 200%float.
  assert (H1 : (10 <? 50)%float = true) by reflexivity.
  assert (H2 : (50 <? 200)%float = true) by reflexivity.
  pose proof (λ H, ltb_false_leb f 10 H eq_refl) as T10.
  pose proof (λ H, ltb_false_leb f 50 H eq_refl) as T50.
  pose proof (λ H, ltb_false_leb f 200 H eq_refl) as T200.
  pose proof (leb_ltb_false 10 f) as A10.
  pose proof (leb_ltb_false 50 f) as A50.
  pose proof (leb_ltb_false 200 f) as A200.
  pose proof (ltb_nan f 10) as N10.
  pose proof (ltb_nan f 50) as N50.
  pose proof (ltb_nan f 200) as N200.
  pose proof (ltb_trans f 10 50) as M1.
  pose proof (ltb_trans f 50 200) as M2.
  destruct (f <? 10)%float eqn:E10; [|destruct (f <? 50)%float eqn:E50;
    [|destruct (f <? 200)%float eqn:E200]];
    intuition congruence.
Qed.

(** X11. The ranges are monotone: of two amounts of one kind (two
    integers, or two floats in the order of the floats), the larger never
    falls in a lower range. *)
Theorem get_amount_range_monotone (a b : value) :
  amount_le a b →
  ∃ ra rb,
    get_amount_range a = Return ra ∧ get_amount_range b = Return rb
    ∧ (range_rank ra ≤ range_rank rb)%nat.
Proof.
  assert (Hint : ∀ x y : Z, x ≤ y →
            ∃ ra rb,
              get_amount_range (VInt x) = Return ra
              ∧ get_amount_range (VInt y) = Return rb
              ∧ (range_rank ra ≤ range_rank rb)%nat).
  { intros x y Hxy. unfold get_amount_range. cbn [lt_literal].
    destruct (Z.ltb_spec x 10); [|destruct (Z.ltb_spec x 50);
      [|destruct (Z.ltb_spec x 200)]];
      (destruct (Z.ltb_spec y 10); [|destruct (Z.ltb_spec y 50);
        [|destruct (Z.ltb_spec y 200)]]);
      try lia; do 2 eexists; (split; [reflexivity|split; [reflexivity|]]);
      vm_compute; lia. }
  destruct a as [|x|x|f|], b as [|y|y|g|]; cbn [amount_le]; try done.
  - intros H. apply (Hint (Z.b2z x) (Z.b2z y) H).
  - intros H. apply (Hint (Z.b2z x) y H).
  - intros H. apply (Hint x (Z.b2z y) H).
  - apply Hint.
  - intros Hle. unfold get_amount_range. cbn [lt_literal].
    pose proof (leb_ltb_trans f g (nearest_float 10) Hle) as T10.
    pose proof (leb_ltb_trans f g (nearest_float 50) Hle) as T50.
    pose proof (leb_ltb_trans f g (nearest_float 200) Hle) as T200.
    destruct (f <? nearest_float 10)%float, (f <? nearest_float 50)%float,
      (f <? nearest_float 200)%float, (g <? nearest_float 10)%float,
      (g <? nearest_float 50)%float, (g <? nearest_float 200)%float;
      try (exfalso; intuition congruence);
      do 2 eexists; (split; [reflexivity|split; [reflexivity|]]);
      vm_compute; lia.
Qed.

Lemma get_amount_range_monotone_witness :
  ∃ ra rb,
    get_amount_range (VFloat 9.5) = Return ra
    ∧ get_amount_range (VFloat 120) = Return rb
    ∧ (range_rank ra ≤ range_rank rb)%nat.
Proof.
  apply (get_amount_range_monotone (VFloat 9.5) (VFloat 120)). reflexivity.
Defined.

End AmountRanges.

(** ** Purchases *)

Section Purchases.

Variable rt : Runtime.

(** X12. [record_purchase_metrics] never looks at the response it is
    given: whatever the status of the response, a purchase is recorded the
    same way, so a purchase answered with an error status is counted like a
    successful one. *)
Theorem purchase_metrics_ignore_response (r1 r2 : Response) (w : World) :
  after (record_purchase_metrics rt (Some r1)) w
  = after (record_purchase_metrics rt (Some r2)) w
  ∧ new_calls (record_purchase_metrics rt (Some r1)) w
    = new_calls (record_purchase_metrics rt (Some r2)) w.
Proof.
  assert (H : after (record_purchase_metrics rt (Some r1)) w
              = after (record_purchase_metrics rt (Some r2)) w).
  { unfold after, record_purchase_metrics, bind, try_except, print, ret.
    destruct (purchase_metrics_body rt w) as [[[]|e] w']; reflexivity. }
  split; [exact H|]. unfold new_calls. by rewrite H.
Qed.

(** X13. On a purchase whose [purchase_amount] is no number (a string,
    [None]), [record_purchase_metrics] emits nothing: the comparison in
    [get_amount_range] raises [TypeError] before the first metric, the
    handler prints one line with the message, and the response is returned
    as given, whatever the client does. *)
Theorem purchase_with_non_numeric_amount (r : Response) (w : World) :
  path (request w) = "/purchase" → method (request w) = "POST" →
  numeric (default (VInt 0) (attrs (request w) !! "purchase_amount")) = false →
  ∃ msg,
    get_amount_range (default (VInt 0) (attrs (request w) !! "purchase_amount"))
    = Raise (TypeError msg)
    ∧ outcome (record_purchase_metrics rt (Some r)) w = Return (Some r)
    ∧ new_calls (record_purchase_metrics rt (Some r)) w = []
    ∧ stdout (after (record_purchase_metrics rt (Some r)) w)
      = stdout w ++ ["Purchase metrics collection error: " +:+ msg].
Proof.
  intros Hp Hm Hnum.
  destruct (get_amount_range_not_numeric _ Hnum) as [msg Hmsg].
  exists msg. split; [exact Hmsg|].
  pose proof (purchase_metrics_body_run rt w) as Hbody. cbn zeta in Hbody.
  destruct Hbody as (_ & _ & Hbody).
  rewrite (proj2 (is_purchase_spec (request w)) (conj Hp Hm)), Hmsg in Hbody.
  unfold outcome, new_calls, after, record_purchase_metrics, bind, try_except,
    print, ret.
  rewrite Hbody. cbn [fst snd emitted stdout exn_message].
  by rewrite drop_all.
Qed.

End Purchases.

(** ** A whole request through the registered hooks *)

Section Pipeline.

Variable rt : Runtime.



(** With a client that takes every call, [record_purchase_metrics] on a
    response emits the purchase metrics of the request, prints the error
    line if the amount has no range, and returns the response. *)
Lemma record_purchase_metrics_silent_run (w : World) (r : Response) :
  silent rt →
  record_purchase_metrics rt (Some r) w =
    (Return (Some r),
     {| request := request w;
        emitted := emitted w ++ purchase_part rt (request w);
        stdout := stdout w ++ purchase_error_lines (request w);
        ticks := ticks w |}).
Proof.
  intros Hs. destruct w as [req em out tk].
  unfold record_purchase_metrics, purchase_metrics_body, purchase_part,
    purchase_error_lines, purchase_error_line, purchase_calls, is_purchase,
    bind, try_except, print, ret, when, request_path, request_method,
    getattr_request, lift.
  cbn [request emitted stdout ticks fst snd].
  destruct (_ && _); cbn [request emitted stdout ticks fst snd];
    [|by rewrite !app_nil_r].
  destruct (get_amount_range _) as [range|e];
    cbn [request emitted stdout ticks fst snd];
    [|by rewrite !app_nil_r].
  rewrite !(statsd_silent rt) by exact Hs.
  cbn [request emitted stdout ticks fst snd].
  by rewrite <- !app_assoc, app_nil_r.
Qed.



(** C3 (the code departs from it). Not every request gets a latency
    sample. Take a request through the hooks as [setup_datadog_metrics]
    registers them, with a client that never raises: [start_timer] has
    recorded the start timestamp, the view returns a response, and the
    timestamp is still on the request. If the path is [/delay] and
    [float(business_value)] raises, then [record_request_data], which
    runs before [stop_timer], raises out of the request after its
    counters: [stop_timer] is never called, the clock is not read again,
    and no histogram sample of the latency metric is emitted. *)
Theorem latency_sample_missing_after_failed_conversion
    (view : M Response) (w w2 : World) (r : Response) (e : exn) :
  silent rt →
  view (after (start_timer rt) w) = (Return r, w2) →
  attrs (request w2) !! "start_time" = Some (VFloat (clock rt (ticks w))) →
  path (request w2) = "/delay" →
  py_float rt (business_value_of (request w2)) = Raise e →
  full_dispatch_request rt (setup_datadog_metrics bare) view w =
    (Raise e,
     {| request := request w2;
        emitted := emitted w2 ++ counter_calls (request w2) r;
        stdout := stdout w2;
        ticks := ticks w2 |})
  ∧ ¬ emits histogram REQUEST_LATENCY_METRIC_NAME
        (counter_calls (request w2) r).
Proof.
  intros Hs Hview _ Hpath Hconv. split.
  - unfold after in Hview. rewrite start_timer_run in Hview.
    cbn [snd] in Hview.
    unfold full_dispatch_request, process_response, execution_order.
    cbn [setup_datadog_metrics bare before_request after_request
         before_request_funcs after_request_funcs app rev run_before run_after
         call_before call_after].
    unfold bind. rewrite start_timer_run. unfold ret at 1. rewrite Hview.
    rewrite (record_purchase_metrics_silent_run w2 r Hs).
    rewrite (record_request_data_silent_run rt Hs).
    cbn [request emitted stdout ticks].
    unfold request_data_outcome, gauge_calls, purchase_part,
      purchase_error_lines, is_purchase.
    rewrite Hpath, Hconv. cbn [String.eqb Ascii.eqb Bool.eqb andb app].
    by rewrite !app_nil_r.
  - unfold emits. rewrite Exists_exists. intros (c & Hin & Hm & _).
    pose proof (counter_calls_are_increments (request w2) r) as Hinc.
    rewrite Forall_forall in Hinc. specialize (Hinc c Hin). congruence.
Qed.

End Pipeline.

(** ** Instances of the further properties *)

Module MoreRuns.

Import Examples.

Lemma record_request_data_raises_only_on_delay_witness :
  (∀ e, outcome (record_request_data quiet (Some ok)) (idle get_delay)
        = Raise e ↔
        path get_delay = "/delay"
        ∧ py_float quiet (business_value_of get_delay) = Raise e)
  ∧ (outcome (record_request_data quiet (Some ok)) (idle get_delay)
     = Return (Some ok) ↔
       path get_delay ≠ "/delay"
       ∨ returns (py_float quiet (business_value_of get_delay)) = true)
  ∧ (returns (outcome (record_request_data quiet (Some ok)) (idle get_delay))
     = false →
     new_calls (record_request_data quiet (Some ok)) (idle get_delay)
     = counter_calls get_delay ok).
Proof.
  apply (record_request_data_raises_only_on_delay quiet Runs.quiet_silent
           (idle get_delay) ok).
Defined.

Lemma memory_gauge_size_falls_back_to_10_witness :
  ∃ size_mb,
    outcome (record_request_data quiet (Some ok)) (idle get_memory)
    = Return (Some ok)
    ∧ new_calls (record_request_data quiet (Some ok)) (idle get_memory)
      = counter_calls get_memory ok ++ [memory_gauge size_mb]
    ∧ ("size" ∉ (args get_memory).*1 → size_mb = 10)
    ∧ (∀ pre s post,
         args get_memory = pre ++ ("size", s) :: post → "size" ∉ pre.*1 →
         size_mb = match parse_int quiet s with Some z => z | None => 10 end).
Proof.
  apply (memory_gauge_size_falls_back_to_10 quiet Runs.quiet_silent
           (idle get_memory) ok).
  reflexivity.
Defined.

Lemma gauges_by_path_witness :
  let cs := new_calls (record_request_data quiet (Some ok)) (idle get_memory) in
  (emits gauge BUSINESS_METRIC cs ↔
     path get_memory = "/delay"
     ∧ returns (py_float quiet (business_value_of get_memory)) = true)
  ∧ (emits gauge MEMORY_USAGE_METRIC cs ↔ path get_memory = "/memory-usage")
  ∧ (emits gauge CPU_USAGE_METRIC cs ↔ path get_memory = "/cpu-intensive")
  ∧ (path get_memory ∉ ["/delay"; "/memory-usage"; "/cpu-intensive"] →
     Forall (λ c, call_method c = increment) cs).
Proof.
  apply (gauges_by_path quiet Runs.quiet_silent (idle get_memory) ok).
Defined.

Lemma at_most_three_metrics_witness :
  let cs := new_calls (record_request_data quiet (Some not_found))
              (idle get_users) in
  (1 ≤ length cs ≤ 3)%nat
  ∧ (length (filter (λ c, call_method c = gauge) cs) ≤ 1)%nat.
Proof.
  apply (at_most_three_metrics quiet Runs.quiet_silent (idle get_users)
           not_found).
Defined.

Lemma purchase_with_non_numeric_amount_witness :
  ∃ msg,
    get_amount_range
      (default (VInt 0) (attrs post_purchase_text !! "purchase_amount"))
    = Raise (TypeError msg)
    ∧ outcome (record_purchase_metrics loud (Some ok))
        (idle post_purchase_text) = Return (Some ok)
    ∧ new_calls (record_purchase_metrics loud (Some ok))
        (idle post_purchase_text) = []
    ∧ stdout (after (record_purchase_metrics loud (Some ok))
                (idle post_purchase_text))
      = [] ++ ["Purchase metrics collection error: " +:+ msg].
Proof.
  apply (purchase_with_non_numeric_amount loud ok (idle post_purchase_text));
    reflexivity.
Defined.



(** [GET /delay] with [request.business_value = 'n/a'], answered with
    status 200: the request ends in [ValueError] with the request counter
    as its only metric. *)
Lemma latency_sample_missing_after_failed_conversion_witness :
  full_dispatch_request quiet (setup_datadog_metrics bare) (ret ok)
    (idle get_delay) =
    (Raise (ValueError "could not convert string to float: 'n/a'"),
     {| request := request delay_done;
        emitted := emitted delay_done ++ counter_calls (request delay_done) ok;
        stdout := stdout delay_done;
        ticks := ticks delay_done |})
  ∧ ¬ emits histogram REQUEST_LATENCY_METRIC_NAME
        (counter_calls (request delay_done) ok).
Proof.
  apply (latency_sample_missing_after_failed_conversion quiet (ret ok)
           (idle get_delay) delay_done ok
           (ValueError "could not convert string to float: 'n/a'")
           Runs.quiet_silent); reflexivity.
Defined.

End MoreRuns.
